(** * NVD client (src/api/nvd_api.py): a shallow embedding and its properties

    The file follows the layout of the Python module: decoded JSON values,
    dates, the [Cve] record, the [CveResultList] class with its shared
    list objects, and the [NvdApi] client.  Library and network primitives
    that the module calls but does not define are fields of the class
    [Env]; every general theorem holds for every instance of it.

    Left out, because nothing a call returns depends on it: the messages
    of the [logging] calls (also the one [APIError] makes when it is
    built), the text of exception messages, and the waiting of the rate
    limiter.  JSON numbers are integers, and dates are naive. *)

From Equations Require Import Equations.
From stdpp Require Import base option list strings.
From Stdlib Require Import ZArith Lia Bool.

Set Warnings "-register-all".

Local Open Scope string_scope.
Local Open Scope list_scope.
Local Open Scope Z_scope.

(** ** Exceptions and fallible pure code *)

(** The exception classes the module can raise, by class only: [APIError]
    is the module's own, the others are the interpreter's.  [ConnectionError]
    stands for whatever the transport raises. *)
Inductive exn : Type :=
| KeyError | TypeError | ValueError | AttributeError | OverflowError
| ConnectionError | APIError.

Inductive result (A : Type) : Type :=
| Ok (a : A)
| Raise (e : exn).
Arguments Ok {A} a.
Arguments Raise {A} e.

Definition rbind {A B} (r : result A) (k : A -> result B) : result B :=
  match r with
  | Ok a => k a
  | Raise e => Raise e
  end.

Notation "'let?' x ':=' r 'in' k" := (rbind r (fun x => k))
  (at level 10, x name, r at level 100, k at level 200, only parsing).

(** ** Decoded JSON values

    What [response.json()] returns: [None], [bool], [int], [str], [list]
    and [dict] values.  Numbers are the integers; a dict is the list of its
    items in insertion order, and a lookup takes the first item of a key. *)
Inductive json : Type :=
| JNull
| JBool (b : bool)
| JNum (n : Z)
| JStr (s : string)
| JList (items : list json)
| JObj (fields : list (string * json)).

Fixpoint dict_get {V} (k : string) (fields : list (string * V)) : option V :=
  match fields with
  | [] => None
  | (k', v) :: rest => if String.eqb k k' then Some v else dict_get k rest
  end.

(** [v[k]] for a string key [k]: a dict answers or raises [KeyError]; every
    other decoded value raises [TypeError] (a list or a string wants integer
    indices, the rest is not subscriptable). *)
Definition getitem (v : json) (k : string) : result json :=
  match v with
  | JObj fields =>
      match dict_get k fields with
      | Some x => Ok x
      | None => Raise KeyError
      end
  | _ => Raise TypeError
  end.

(** [v.keys()]: only a dict has the method. *)
Definition py_keys (v : json) : result (list string) :=
  match v with
  | JObj fields => Ok (fst <$> fields)
  | _ => Raise AttributeError
  end.

Fixpoint chars (s : string) : list json :=
  match s with
  | EmptyString => []
  | String c rest => JStr (String c EmptyString) :: chars rest
  end.

(** [for x in v]: a list yields its items, a dict its keys, a string its
    characters; the other values are not iterable. *)
Definition py_iter (v : json) : result (list json) :=
  match v with
  | JList items => Ok items
  | JObj fields => Ok ((fun kv => JStr (fst kv)) <$> fields)
  | JStr s => Ok (chars s)
  | _ => Raise TypeError
  end.

(** Python's [==] on decoded values: [bool] is a subtype of [int], lists
    compare item by item, dicts by key. *)
Fixpoint json_eq (a b : json) {struct a} : bool :=
  match a, b with
  | JNull, JNull => true
  | JBool x, JBool y => Bool.eqb x y
  | JBool x, JNum n => Z.b2z x =? n
  | JNum n, JBool y => n =? Z.b2z y
  | JNum x, JNum y => x =? y
  | JStr x, JStr y => String.eqb x y
  | JList xs, JList ys =>
      (fix items_eq (xs ys : list json) {struct xs} : bool :=
         match xs, ys with
         | [], [] => true
         | x :: xs', y :: ys' => json_eq x y && items_eq xs' ys'
         | _, _ => false
         end) xs ys
  | JObj xs, JObj ys =>
      Nat.eqb (length xs) (length ys) &&
      (fix fields_in (xs : list (string * json)) {struct xs} : bool :=
         match xs with
         | [] => true
         | kv :: xs' =>
             match dict_get (fst kv) ys with
             | Some w => json_eq (snd kv) w
             | None => false
             end && fields_in xs'
         end) xs
  | _, _ => false
  end.

(** Values that are not decoded JSON: the tuples [get_cve_id_list] builds. *)
Inductive pyval : Type :=
| VJson (j : json)
| VTuple (items : list pyval).

(** [==] on these values: a tuple equals only a tuple, item by item. *)
Fixpoint py_eq (a b : pyval) {struct a} : bool :=
  match a, b with
  | VJson x, VJson y => json_eq x y
  | VTuple xs, VTuple ys =>
      (fix items_eq (xs ys : list pyval) {struct xs} : bool :=
         match xs, ys with
         | [], [] => true
         | x :: xs', y :: ys' => py_eq x y && items_eq xs' ys'
         | _, _ => false
         end) xs ys
  | _, _ => false
  end.

(** [x in l] for a list [l]: some item equals [x]. *)
Definition py_in (x : pyval) (l : list pyval) : bool :=
  existsb (fun e => py_eq e x) l.

(** ** Dates

    A naive [datetime] is its count of microseconds since 0001-01-01T00:00,
    a [timedelta] a count of microseconds.  Comparison and subtraction are
    those of the counts; an addition that leaves the years 1..9999 raises
    [OverflowError]. *)
Definition datetime : Type := Z.
Definition timedelta : Type := Z.

Definition DT_MAX : Z := 315537897599999999.

Definition dt_valid (d : datetime) : Prop := 0 <= d <= DT_MAX.

Definition days (n : Z) : timedelta := n * 86400000000.

Definition dt_sub (a b : datetime) : timedelta := a - b.

Definition dt_add (d : datetime) (t : timedelta) : result datetime :=
  if (0 <=? d + t) && (d + t <=? DT_MAX) then Ok (d + t) else Raise OverflowError.

(** ** The world outside the module

    [datetime.strptime], [strftime], [str()] of a value that is not a [str],
    and the two calls of [requests] are library code: the module's results
    are stated for every behaviour of them. *)
Record response : Type := mkResponse {
  ok : bool;              (* response.ok *)
  body : result json      (* response.json() *)
}.

Class Env : Type := {
  strptime : string -> string -> result datetime;
  strftime : datetime -> string -> string;
  py_repr : json -> string;
  requests_get : string -> list (string * string) -> bool -> result response;
  requests_head : string -> result Z
}.

(** [str(v)], what an f-string puts in place of [{v}]. *)
Definition py_str `{Env} (v : json) : string :=
  match v with
  | JStr s => s
  | _ => py_repr v
  end.

(** [datetime.strptime(v, fmt)]: the first argument must be a [str]. *)
Definition py_strptime `{Env} (v : json) (fmt : string) : result datetime :=
  match v with
  | JStr s => strptime s fmt
  | _ => Raise TypeError
  end.

(** [max(l, key=key)]: the first item whose key is greatest; an empty
    argument raises [ValueError].  The key is applied to every item, in
    order, and an exception of it ends the call. *)
Fixpoint max_loop {A} (key : A -> result Z) (l : list A) (maxitem : A) (maxval : Z)
  : result A :=
  match l with
  | [] => Ok maxitem
  | x :: rest =>
      let? val := key x in
      if val >? maxval then max_loop key rest x val
      else max_loop key rest maxitem maxval
  end.

Definition py_max {A} (key : A -> result Z) (l : list A) : result A :=
  match l with
  | [] => Raise ValueError
  | x :: rest => let? val := key x in max_loop key rest x val
  end.

(** ** The interpreter's state: list objects and the network log *)

Definition loc : Type := nat.

Inductive event : Type :=
| EvGet (url : string) (params : list (string * string))
| EvHead (url : string).

Definition DETAIL_VIEW_PREFIX : string := "https://nvd.nist.gov/vuln/detail/".
Definition _SEARCH_URL_SPECIFIC : string := "https://services.nvd.nist.gov/rest/json/cve/1.0".
Definition _SEARCH_URL_MULTI : string := "https://services.nvd.nist.gov/rest/json/cves/1.0".

(** class Cve: the constructor only stores its four arguments. *)
Record Cve : Type := mkCve {
  cve_id : json;
  published_date : datetime;
  last_modified_date : datetime;
  severity : json
}.

Definition DATE_FORMAT : string := "%Y-%m-%dT%H:%MZ".

(** [Cve.result_to_cve]: the reads in the order the source makes them;
    [result_json['impact']] is read again in the else branch. *)
Definition result_to_cve `{Env} (result_json : json) : result Cve :=
  let? m := getitem result_json "lastModifiedDate" in
  let? mod_date := py_strptime m DATE_FORMAT in
  let? p := getitem result_json "publishedDate" in
  let? pub_date := py_strptime p DATE_FORMAT in
  let? cve := getitem result_json "cve" in
  let? meta := getitem cve "CVE_data_meta" in
  let? id := getitem meta "ID" in
  let? impact := getitem result_json "impact" in
  let? sev :=
    (if json_eq impact (JObj []) then Ok (JStr "UNKNOWN")
     else
       let? impact' := getitem result_json "impact" in
       let? v2 := getitem impact' "baseMetricV2" in
       getitem v2 "severity") in
  Ok (mkCve id pub_date mod_date sev).

(** An item of a result list: a [Cve], or a decoded value when the list is
    a JSON array that the constructor took as it was. *)
Inductive item : Type :=
| Rec (c : Cve)
| Raw (v : json).

Record state : Type := mkState {
  heap : list (list item);   (* the list objects, by identity *)
  trace : list event         (* the requests sent so far, oldest first *)
}.

Inductive outcome (A : Type) : Type :=
| Returns (a : A) (s : state)
| Raises (e : exn) (s : state)
| OutOfFuel.
Arguments Returns {A} a s.
Arguments Raises {A} e s.
Arguments OutOfFuel {A}.

Definition M (A : Type) : Type := state -> outcome A.

Definition ret {A} (a : A) : M A := fun s => Returns a s.

Definition raise {A} (e : exn) : M A := fun s => Raises e s.

Definition lift {A} (r : result A) : M A :=
  fun s => match r with Ok a => Returns a s | Raise e => Raises e s end.

Definition mbind {A B} (m : M A) (k : A -> M B) : M B :=
  fun s =>
    match m s with
    | Returns a s' => k a s'
    | Raises e s' => Raises e s'
    | OutOfFuel => OutOfFuel
    end.

Notation "'let*' x ':=' m 'in' k" := (mbind m (fun x => k))
  (at level 10, x name, m at level 100, k at level 200, only parsing).

Fixpoint mapM {A B} (f : A -> M B) (l : list A) : M (list B) :=
  match l with
  | [] => ret []
  | x :: rest => let* y := f x in let* ys := mapM f rest in ret (y :: ys)
  end.

(** [functools.reduce(f, l, acc)] *)
Fixpoint reduce {A B} (f : B -> A -> M B) (l : list A) (acc : B) : M B :=
  match l with
  | [] => ret acc
  | x :: rest => let* acc' := f acc x in reduce f rest acc'
  end.

Definition read_list (r : loc) : M (list item) :=
  fun s => Returns (default [] (heap s !! r)) s.

(** A new list object: its identity is the next free one. *)
Definition new_list (l : list item) : M loc :=
  fun s => Returns (length (heap s)) (mkState (heap s ++ [l]) (trace s)).

(** [r.append(x)], in place. *)
Definition list_append (r : loc) (x : item) : M unit :=
  fun s => Returns tt (mkState (alter (fun l => l ++ [x]) r (heap s)) (trace s)).

Definition log (ev : event) : M unit :=
  fun s => Returns tt (mkState (heap s) (trace s ++ [ev])).

(** Attribute reads on an item: a decoded value has none of them. *)
Definition attr_cve_id (x : item) : result json :=
  match x with Rec c => Ok (cve_id c) | Raw _ => Raise AttributeError end.

Definition attr_published_date (x : item) : result datetime :=
  match x with Rec c => Ok (published_date c) | Raw _ => Raise AttributeError end.

Definition attr_severity (x : item) : result json :=
  match x with Rec c => Ok (severity c) | Raw _ => Raise AttributeError end.

(** [Cve.get_url] *)
Definition get_url `{Env} (self : Cve) (check_is_up : bool) : M json :=
  let url := DETAIL_VIEW_PREFIX +:+ py_str (cve_id self) in
  if check_is_up then
    let* _ := log (EvHead url) in
    let* status_code := lift (requests_head url) in
    if status_code =? 200 then ret (JStr url) else ret JNull
  else ret (JStr url).

(** class CveResultList.  An instance holds a reference to its list of
    results; [num_results] is [None] while the attribute has never been
    assigned, [Some JNull] when it holds Python's [None]. *)
Module CveResultList.

Record t : Type := mk {
  results : loc;
  num_results : option json
}.

(** The constructor's argument: a list object, or a decoded payload. *)
Inductive init_arg : Type :=
| ArgList (r : loc)
| ArgJson (j : json).

Fixpoint parse_items `{Env} (r : loc) (items : list json) : M unit :=
  match items with
  | [] => ret tt
  | cve_json :: rest =>
      let* c := lift (result_to_cve cve_json) in
      let* _ := list_append r (Rec c) in
      parse_items r rest
  end.

(** [_parse_json]: returns what it assigns to [self.num_results]; the
    records go to the list [r] one by one. *)
Definition _parse_json `{Env} (r : loc) (json_result : json) : M json :=
  let* n := lift (getitem json_result "totalResults") in
  let* items :=
    lift (let? res := getitem json_result "result" in
          let? cve_items := getitem res "CVE_Items" in
          py_iter cve_items) in
  let* _ := parse_items r items in
  ret n.

(** [__init__].  [type(json_result) is list] holds for a list of records
    and for a payload that is a JSON array, which is then kept as it is;
    in that branch [num_results] is not assigned. *)
Definition __init__ `{Env} (json_result : init_arg) : M t :=
  match json_result with
  | ArgList r => ret (mk r None)
  | ArgJson (JList items) =>
      let* r := new_list (Raw <$> items) in
      ret (mk r None)
  | ArgJson JNull =>
      let* r := new_list [] in
      ret (mk r (Some JNull))
  | ArgJson j =>
      let* r := new_list [] in
      let* n := _parse_json r j in
      ret (mk r (Some n))
  end.

(** [get_latest].  [self.results] is a list in every instance, so the
    guard [is not None] holds and the implicit [return None] is never
    reached; [None] is Python's [None]. *)
Definition get_latest (self : t) : M (option item) :=
  let* l := read_list (results self) in
  let* x := lift (py_max attr_published_date l) in
  ret (Some x).

Definition id_pair `{Env} (make_urls : bool) (cve : item) : M pyval :=
  let* id := lift (attr_cve_id cve) in
  match cve with
  | Rec c =>
      if make_urls then
        let* url := get_url c false in
        ret (VTuple [VJson id; VJson url])
      else ret (VTuple [VJson id; VJson JNull])
  | Raw _ => raise AttributeError
  end.

Definition get_cve_id_list `{Env} (self : t) (make_urls : bool) : M (list pyval) :=
  let* l := read_list (results self) in
  mapM (id_pair make_urls) l.

Definition severities : list (string * Z) :=
  [("UNKNOWN", -1); ("LOW", 0); ("MEDIUM", 1); ("HIGH", 2); ("CRITICAL", 3)].

(** [_severity_ranking]: [severities[cve.severity]].  A key that is not
    in the dict raises [KeyError], an unhashable one [TypeError]. *)
Definition _severity_ranking (cve : item) : result Z :=
  let? sev := attr_severity cve in
  match sev with
  | JStr label =>
      match dict_get label severities with
      | Some rank => Ok rank
      | None => Raise KeyError
      end
  | JList _ | JObj _ => Raise TypeError
  | _ => Raise KeyError
  end.

Definition get_max_severity (self : t) : M json :=
  let* l := read_list (results self) in
  match l with
  | [] => ret JNull
  | _ =>
      let* x := lift (py_max _severity_ranking l) in
      lift (attr_severity x)
  end.

(** The loop of [add].  The iterator over [other.results] is an index
    into the list object, read again at every step; the body appends to
    [first.results].  When both are one object the index never reaches
    the end, so the loop is given fuel. *)
Fixpoint add_loop `{Env} (fuel : nat) (first other : t) (i : nat) (s : state)
  : outcome unit :=
  match fuel with
  | O => OutOfFuel
  | S fuel' =>
      match default [] (heap s !! results other) !! i with
      | None => Returns tt s
      | Some o =>
          (let* id := lift (attr_cve_id o) in
           let* ids := get_cve_id_list first false in
           let* _ :=
             (if negb (py_in (VJson id) ids)
              then list_append (results first) o
              else ret tt) in
           add_loop fuel' first other (S i)) s
      end
  end.

Definition add `{Env} (fuel : nat) (first other : t) : M t :=
  let merged_results := results first in
  let* _ := add_loop fuel first other 0%nat in
  __init__ (ArgList merged_results).

End CveResultList.

Definition inspect {A} (a : A) : {b : A | a = b} := exist _ a eq_refl.

(** class NvdApi.  The rate limiter only delays a call, so it has no part
    in what a call returns; [datetime.now()] is the argument [now]. *)
Module NvdApi.

Record t : Type := mk {
  api_key : option string;
  period : Z;
  max_calls : Z
}.

(** [100 if api_key else 10]: [None] and the empty string are false. *)
Definition __init__ (api_key : option string) : t :=
  mk api_key 60
     (match api_key with
      | Some (String _ _) => 100
      | _ => 10
      end).

Definition _perform_request `{Env} (self : t) (url : string)
    (parameters : list (string * string)) (verify : bool) : M json :=
  let* _ := log (EvGet url parameters) in
  let* response := lift (requests_get url parameters verify) in
  if ok response then lift (body response)
  else raise APIError.

Definition _request_specific_by_id `{Env} (self : t) (cve_id : string) : M json :=
  let search_url := _SEARCH_URL_SPECIFIC +:+ "/" +:+ cve_id in
  _perform_request self search_url [] false.

Definition QUERY_DATE_FORMAT : string := "%Y-%m-%dT%H:%M:%S:000 UTC-05:00".

Definition _name_date_query `{Env} (self : t) (keyword : string)
    (start_date end_date : datetime) : M json :=
  let pars :=
    [("keyword", keyword);
     ("pubStartDate", strftime start_date QUERY_DATE_FORMAT);
     ("pubEndDate", strftime end_date QUERY_DATE_FORMAT)] in
  _perform_request self _SEARCH_URL_MULTI pars false.

(** [v.contains(needle)]: no decoded value has an attribute [contains]
    (a [str] spells the test [in]), so the call raises whatever [v] is. *)
Definition call_contains (v : json) (needle : string) : result bool :=
  match v with
  | JNull | JBool _ | JNum _ | JStr _ | JList _ | JObj _ => Raise AttributeError
  end.

(** [search_by_id].  [and] and [or] evaluate left to right and stop at
    the first operand that decides them. *)
Definition search_by_id `{Env} (self : t) (cve_id : string) : M CveResultList.t :=
  let* data := _request_specific_by_id self cve_id in
  let* keys := lift (py_keys data) in
  let* not_found :=
    (if existsb (String.eqb "message") keys then
       let* message := lift (getitem data "message") in
       lift (call_contains message "Unable to find vuln")
     else ret false) in
  let* no_data :=
    (if not_found then ret true
     else
       let* total := lift (getitem data "totalResults") in
       ret (json_eq total (JNum 0))) in
  if no_data then raise APIError
  else CveResultList.__init__ (CveResultList.ArgJson data).

Definition max_delta : timedelta := days 120.

(** The [while] loop of [search_by_name_and_date]: [my_delta] is
    [now - curr_date] at every test of the condition. *)
Equations? ranges_loop (now curr_date : datetime) (ranges : list (datetime * datetime))
  : result (list (datetime * datetime))
  by wf (Z.to_nat (dt_sub now curr_date `div` max_delta)) lt :=
  ranges_loop now curr_date ranges with inspect (dt_sub now curr_date >? max_delta) => {
    | exist _ false _ := Ok (ranges ++ [(curr_date, now)]);
    | exist _ true Hgt with inspect (dt_add curr_date max_delta) => {
        | exist _ (Raise e) _ := Raise e;
        | exist _ (Ok next) Hnext :=
            ranges_loop now next (ranges ++ [(curr_date, next)]) } }.
Proof.
  unfold dt_add in Hnext.
  destruct (_ && _); inversion Hnext; subst; clear Hnext.
  apply Z.gtb_lt in Hgt.
  unfold dt_sub, max_delta, days in *.
  replace (now - (curr_date + 120 * 86400000000))
    with ((now - curr_date) + (-1) * (120 * 86400000000)) by lia.
  rewrite Z.div_add by lia.
  assert (1 <= (now - curr_date) `div` (120 * 86400000000))
    by (apply Z.div_le_lower_bound; lia).
  lia.
Qed.

Definition date_ranges (now start_date : datetime)
  : result (list (datetime * datetime)) :=
  ranges_loop now start_date [].

Definition query_range `{Env} (self : t) (keyword : string)
    (range : datetime * datetime) : M CveResultList.t :=
  let* payload := _name_date_query self keyword (fst range) (snd range) in
  CveResultList.__init__ (CveResultList.ArgJson payload).

(** [search_by_name_and_date]: without a [start_date] the subtraction
    [now - None] raises. *)
Definition search_by_name_and_date `{Env} (self : t) (fuel : nat) (now : datetime)
    (keyword : string) (start_date : option datetime) : M CveResultList.t :=
  match start_date with
  | None => raise TypeError
  | Some start =>
      let* ranges := lift (date_ranges now start) in
      let* results := mapM (query_range self keyword) ranges in
      let* empty := new_list [] in
      let* seed := CveResultList.__init__ (CveResultList.ArgList empty) in
      reduce (CveResultList.add fuel) results seed
  end.

End NvdApi.

(** ** Vocabulary of the statements *)

(** [t] lies in the half-open interval [r]. *)
Definition within (t : datetime) (r : datetime * datetime) : Prop :=
  fst r <= t < snd r.

(** The [k]-th full chunk after [curr], and the list the loop builds when
    it makes [n] full chunks before the closing range. *)
Definition chunk (curr : datetime) (k : nat) : datetime * datetime :=
  (curr + Z.of_nat k * NvdApi.max_delta, curr + (Z.of_nat k + 1) * NvdApi.max_delta).

Definition ranges_of (start now : datetime) (n : nat) : list (datetime * datetime) :=
  (chunk start <$> seq 0 n) ++ [(start + Z.of_nat n * NvdApi.max_delta, now)].

(** [m] is the first item of [l] whose key is greatest: every key is
    defined, none exceeds the key of [m], and every earlier one is smaller. *)
Definition first_max {A} (key : A -> result Z) (l : list A) (m : A) : Prop :=
  exists (i : nat) (km : Z),
    l !! i = Some m /\ key m = Ok km
    /\ (forall j y, l !! j = Some y -> exists ky, key y = Ok ky /\ ky <= km)
    /\ (forall j y, (j < i)%nat -> l !! j = Some y -> exists ky, key y = Ok ky /\ ky < km).

(** Some record of [cs] has an identifier equal, by Python's [==], to
    [id]. *)
Definition has_identifier (id : json) (cs : list Cve) : bool :=
  existsb (fun c => json_eq (cve_id c) id) cs.

(** The pair [get_cve_id_list] makes of a record. *)
Definition id_tuple (id url : json) : pyval := VTuple [VJson id; VJson url].

(** The second slot of that pair: the detail URL, or [None]. *)
Definition url_slot `{Env} (make_urls : bool) (c : Cve) : json :=
  if make_urls then JStr (DETAIL_VIEW_PREFIX +:+ py_str (cve_id c)) else JNull.

Definition SEVERITY_LABELS : list string :=
  ["UNKNOWN"; "LOW"; "MEDIUM"; "HIGH"; "CRITICAL"].

Definition labelled (c : Cve) : Prop :=
  exists label, severity c = JStr label /\ label ∈ SEVERITY_LABELS.

(** ** A test double of the environment, for the closed examples

    Dates are looked up in small tables; the two search chunks of 2020 and
    three single lookups have canned responses, every other request is
    answered with a failure status. *)
Definition T_2020_01_01 : datetime := 63713433600000000.
Definition T_2020_04_30 : datetime := 63723801600000000.
Definition T_2020_06_01 : datetime := 63726566400000000.
Definition T_2021_01_01_10h : datetime := 63745092000000000.
Definition T_2021_03_05_08h30 : datetime := 63750529800000000.

Definition sample_strptime (s fmt : string) : result datetime :=
  if String.eqb fmt DATE_FORMAT then
    match dict_get s [("2021-01-01T10:00Z", T_2021_01_01_10h);
                      ("2021-03-05T08:30Z", T_2021_03_05_08h30)] with
    | Some d => Ok d
    | None => Raise ValueError
    end
  else Raise ValueError.

Definition sample_strftime (d : datetime) (fmt : string) : string :=
  if d =? T_2020_01_01 then "2020-01-01T00:00:00:000 UTC-05:00"
  else if d =? T_2020_04_30 then "2020-04-30T00:00:00:000 UTC-05:00"
  else if d =? T_2020_06_01 then "2020-06-01T00:00:00:000 UTC-05:00"
  else "".

Definition sample_item (id : string) (impact : json) : json :=
  JObj [("cve", JObj [("CVE_data_meta", JObj [("ID", JStr id)])]);
        ("impact", impact);
        ("publishedDate", JStr "2021-01-01T10:00Z");
        ("lastModifiedDate", JStr "2021-03-05T08:30Z")].

Definition impact_v2 (label : string) : json :=
  JObj [("baseMetricV2", JObj [("severity", JStr label)])].

(** An item that carries no [impact] key at all. *)
Definition item_without_impact : json :=
  JObj [("cve", JObj [("CVE_data_meta", JObj [("ID", JStr "CVE-9")])]);
        ("publishedDate", JStr "2021-01-01T10:00Z");
        ("lastModifiedDate", JStr "2021-03-05T08:30Z")].

Definition sample_payload (items : list json) : json :=
  JObj [("totalResults", JNum (Z.of_nat (length items)));
        ("result", JObj [("CVE_Items", JList items)])].

Definition chunk1_payload : json :=
  sample_payload [sample_item "CVE-1" (impact_v2 "HIGH");
                  sample_item "CVE-2" (impact_v2 "LOW")].

Definition chunk2_payload : json :=
  sample_payload [sample_item "CVE-2" (impact_v2 "CRITICAL");
                  sample_item "CVE-3" (impact_v2 "MEDIUM")].

Definition not_found_payload : json :=
  JObj [("message", JStr "Unable to find vuln CVE-0000-0000");
        ("totalResults", JNum 0)].

Definition annotated_payload : json :=
  JObj [("message", JStr "served from cache");
        ("totalResults", JNum 1);
        ("result", JObj [("CVE_Items", JList [sample_item "CVE-1" (impact_v2 "HIGH")])])].

Definition good (payload : json) : result response := Ok (mkResponse true (Ok payload)).

Definition sample_get (url : string) (params : list (string * string)) (verify : bool)
  : result response :=
  if String.eqb url _SEARCH_URL_MULTI then
    match dict_get "pubStartDate" params with
    | Some "2020-01-01T00:00:00:000 UTC-05:00" => good chunk1_payload
    | Some "2020-04-30T00:00:00:000 UTC-05:00" => good chunk2_payload
    | _ => Ok (mkResponse false (Raise ValueError))
    end
  else if String.eqb url (_SEARCH_URL_SPECIFIC +:+ "/CVE-0000-0000") then
    good not_found_payload
  else if String.eqb url (_SEARCH_URL_SPECIFIC +:+ "/CVE-1") then
    good annotated_payload
  else if String.eqb url (_SEARCH_URL_SPECIFIC +:+ "/CVE-2") then
    good (sample_payload [sample_item "CVE-2" (impact_v2 "LOW")])
  else Ok (mkResponse false (Raise ValueError)).

Definition sample_env : Env := {|
  strptime := sample_strptime;
  strftime := sample_strftime;
  py_repr := fun _ => "";
  requests_get := sample_get;
  requests_head := fun _ => Ok 404
|}.

Definition cve1_high : Cve :=
  mkCve (JStr "CVE-1") T_2021_01_01_10h T_2021_03_05_08h30 (JStr "HIGH").
Definition cve1_low : Cve :=
  mkCve (JStr "CVE-1") T_2021_03_05_08h30 T_2021_03_05_08h30 (JStr "LOW").
Definition cve2_low : Cve :=
  mkCve (JStr "CVE-2") T_2021_01_01_10h T_2021_03_05_08h30 (JStr "LOW").
Definition cve2_critical : Cve :=
  mkCve (JStr "CVE-2") T_2021_01_01_10h T_2021_03_05_08h30 (JStr "CRITICAL").
Definition cve3_medium : Cve :=
  mkCve (JStr "CVE-3") T_2021_01_01_10h T_2021_03_05_08h30 (JStr "MEDIUM").

(** Two result sets over two list objects, and an empty one. *)
Definition two_lists : state :=
  mkState [[Rec cve1_high]; [Rec cve1_low]; []] [].
Definition set_A : CveResultList.t := CveResultList.mk 0%nat None.
Definition set_B : CveResultList.t := CveResultList.mk 1%nat None.
Definition set_empty : CveResultList.t := CveResultList.mk 2%nat None.

(** Two result sets that have no identifier in common. *)
Definition disjoint_lists : state :=
  mkState [[Rec cve1_high]; [Rec cve2_low]] [].

(** One result set holding the severities HIGH, CRITICAL and LOW. *)
Definition three_severities : state :=
  mkState [[Rec cve1_high; Rec cve2_critical; Rec cve2_low]] [].

Definition no_lists : state := mkState [] [].

(** ** Vocabulary of the statements on the rest of the module *)

(** A computation that always ends, by a return or by an exception, in
    the state it started from. *)
Definition read_only {A} (m : M A) : Prop :=
  forall s,
    match m s with
    | Returns _ s' | Raises _ s' => s' = s
    | OutOfFuel => False
    end.

(** Every item of [items] parses, and [cs] are the records, in order. *)
Definition parses `{Env} (items : list json) (cs : list Cve) : Prop :=
  Forall2 (fun j c => result_to_cve j = Ok c) items cs.

(** A payload of the documented shape: a dict with a count [n] under
    [totalResults] and, under [result] and [CVE_Items], something to
    iterate over whose items parse to [cs]. *)
Definition well_formed_payload `{Env} (payload n : json) (cs : list Cve) : Prop :=
  exists fields res cve_items items,
    payload = JObj fields
    /\ dict_get "totalResults" fields = Some n
    /\ dict_get "result" fields = Some res
    /\ getitem res "CVE_Items" = Ok cve_items
    /\ py_iter cve_items = Ok items
    /\ parses items cs.

(** The request [_name_date_query] sends for a range. *)
Definition range_request `{Env} (keyword : string) (range : datetime * datetime) : event :=
  EvGet _SEARCH_URL_MULTI
    [("keyword", keyword);
     ("pubStartDate", strftime (fst range) NvdApi.QUERY_DATE_FORMAT);
     ("pubEndDate", strftime (snd range) NvdApi.QUERY_DATE_FORMAT)].

(** The transport answers the request of [range] with a success status
    and a well-formed payload of records [cs]. *)
Definition range_answered `{Env} (keyword : string) (range : datetime * datetime)
    (cs : list Cve) : Prop :=
  exists payload n,
    requests_get _SEARCH_URL_MULTI
      [("keyword", keyword);
       ("pubStartDate", strftime (fst range) NvdApi.QUERY_DATE_FORMAT);
       ("pubEndDate", strftime (snd range) NvdApi.QUERY_DATE_FORMAT)] false
    = Ok (mkResponse true (Ok payload))
    /\ well_formed_payload payload n cs.

(** The transport answers the request of [range] with a failure status. *)
Definition range_refused `{Env} (keyword : string) (range : datetime * datetime) : Prop :=
  exists resp,
    requests_get _SEARCH_URL_MULTI
      [("keyword", keyword);
       ("pubStartDate", strftime (fst range) NvdApi.QUERY_DATE_FORMAT);
       ("pubEndDate", strftime (snd range) NvdApi.QUERY_DATE_FORMAT)] false
    = Ok resp
    /\ ok resp = false.

(** * Properties *)

(** ** Decoded values *)

Lemma json_eq_empty_dict (j : json) : json_eq j (JObj []) = true <-> j = JObj [].
Proof.
  destruct j as [| | | | |fields]; simpl; try (split; [discriminate|congruence]).
  destruct fields; simpl; split; congruence.
Qed.

Lemma dict_get_keys {V} (k : string) (fields : list (string * V)) :
  existsb (String.eqb k) (fst <$> fields) = true <-> dict_get k fields <> None.
Proof.
  induction fields as [|[k' v] rest IH]; simpl.
  - split; [discriminate|congruence].
  - destruct (String.eqb k k'); simpl; [split; [discriminate|reflexivity]|exact IH].
Qed.

(** No decoded value is equal to a tuple. *)
Lemma py_in_tuples (x : json) (l : list pyval) :
  Forall (fun e => exists items, e = VTuple items) l -> py_in (VJson x) l = false.
Proof.
  unfold py_in. induction 1 as [|e l [items ->] _ IH]; simpl; [reflexivity|exact IH].
Qed.

(** ** The state monad *)

Lemma mbind_returns {A B} (m : M A) (k : A -> M B) s b s' :
  mbind m k s = Returns b s' ->
  exists a s1, m s = Returns a s1 /\ k a s1 = Returns b s'.
Proof.
  unfold mbind. destruct (m s) as [a s1| |]; [eauto|discriminate|discriminate].
Qed.

Lemma state_eta (s : state) : mkState (heap s) (trace s) = s.
Proof. destruct s; reflexivity. Qed.

Lemma alter_insert {A} (f : A -> A) (l : list A) (i : nat) (x : A) :
  l !! i = Some x -> alter f i l = <[i := f x]> l.
Proof.
  intros Hi. apply list_eq. intros j.
  destruct (decide (i = j)) as [<-|Hne].
  - rewrite list_lookup_alter_eq, Hi, list_lookup_insert_eq; [reflexivity|].
    eapply lookup_lt_Some; eauto.
  - rewrite list_lookup_alter_ne, list_lookup_insert_ne by done. reflexivity.
Qed.

(** ** max *)

Lemma max_loop_first_max {A} (key : A -> result Z) (l pre : list A) (best : A) (kb : Z) :
  (forall y, y ∈ l -> exists ky, key y = Ok ky) ->
  key best = Ok kb ->
  first_max key pre best ->
  exists m, max_loop key l best kb = Ok m /\ first_max key (pre ++ l) m.
Proof.
  revert pre best kb.
  induction l as [|x l IH]; intros pre best kb Hkeys Hkb Hbest; simpl.
  - exists best. rewrite app_nil_r. auto.
  - destruct (Hkeys x) as [kx Hkx]; [left|]. rewrite Hkx. simpl.
    assert (Hrest : forall y, y ∈ l -> exists ky, key y = Ok ky)
      by (intros y Hy; apply Hkeys; right; exact Hy).
    destruct Hbest as (i & km & Hi & Hkm & Hall & Hbefore).
    assert (km = kb) as -> by congruence.
    replace (pre ++ x :: l) with ((pre ++ [x]) ++ l) by (rewrite <- app_assoc; reflexivity).
    destruct (Z.gtb_spec kx kb) as [Hgt|Hle]; apply IH; auto.
    + exists (length pre), kx. split; [|split; [exact Hkx|split]].
      * rewrite lookup_app_r, Nat.sub_diag by lia. reflexivity.
      * intros j y Hj. apply lookup_app_Some in Hj as [Hj|[_ Hj]].
        -- destruct (Hall j y Hj) as (ky & ? & ?). exists ky. split; [done|lia].
        -- destruct (j - length pre)%nat; simpl in Hj; [|destruct n; discriminate].
           injection Hj as <-. exists kx. split; [done|lia].
      * intros j y Hlt Hj. rewrite lookup_app_l in Hj by lia.
        destruct (Hall j y Hj) as (ky & ? & ?). exists ky. split; [done|lia].
    + exists i, kb. split; [|split; [exact Hkb|split]].
      * apply lookup_app_l_Some. exact Hi.
      * intros j y Hj. apply lookup_app_Some in Hj as [Hj|[_ Hj]]; [eauto|].
        destruct (j - length pre)%nat; simpl in Hj; [|destruct n; discriminate].
        injection Hj as <-. exists kx. split; [done|lia].
      * intros j y Hlt Hj. apply (Hbefore j y Hlt).
        rewrite lookup_app_l in Hj; [exact Hj|].
        apply lookup_lt_Some in Hi. lia.
Qed.

Lemma py_max_first_max {A} (key : A -> result Z) (l : list A) :
  l <> [] ->
  (forall y, y ∈ l -> exists ky, key y = Ok ky) ->
  exists m, py_max key l = Ok m /\ first_max key l m.
Proof.
  destruct l as [|x l]; [congruence|]. intros _ Hkeys. simpl.
  destruct (Hkeys x) as [kx Hkx]; [left|]. rewrite Hkx. simpl.
  apply (max_loop_first_max key l [x] x kx).
  - intros y Hy. apply Hkeys. right. exact Hy.
  - exact Hkx.
  - exists 0%nat, kx. split; [reflexivity|]. split; [exact Hkx|]. split.
    + intros [|j] y Hj; simpl in Hj; [|discriminate].
      injection Hj as <-. exists kx. split; [done|lia].
    + intros j y Hlt. lia.
Qed.

(** ** Result sets *)

Section ResultSets.
Context `{Env}.
Import CveResultList.

Lemma read_list_records (r : loc) (l : list item) (s : state) :
  heap s !! r = Some l -> read_list r s = Returns l s.
Proof. intros Hr. unfold read_list. rewrite Hr. reflexivity. Qed.

Lemma get_url_unchecked (c : Cve) (s : state) :
  get_url c false s = Returns (JStr (DETAIL_VIEW_PREFIX +:+ py_str (cve_id c))) s.
Proof. reflexivity. Qed.

Lemma mapM_id_pair (make_urls : bool) (cs : list Cve) (s : state) :
  mapM (id_pair make_urls) (Rec <$> cs) s
  = Returns ((fun c => id_tuple (cve_id c) (url_slot make_urls c)) <$> cs) s.
Proof.
  induction cs as [|c cs IH]; [reflexivity|].
  rewrite fmap_cons. cbn [mapM]. unfold mbind at 1.
  assert (Hc : id_pair make_urls (Rec c) s
               = Returns (id_tuple (cve_id c) (url_slot make_urls c)) s)
    by (destruct make_urls; reflexivity).
  rewrite Hc. unfold mbind. rewrite IH. reflexivity.
Qed.

Lemma get_cve_id_list_records (self : t) (make_urls : bool) (cs : list Cve) (s : state) :
  heap s !! results self = Some (Rec <$> cs) ->
  get_cve_id_list self make_urls s
  = Returns ((fun c => id_tuple (cve_id c) (url_slot make_urls c)) <$> cs) s.
Proof.
  intros Hr. unfold get_cve_id_list, mbind.
  rewrite (read_list_records _ _ _ Hr). apply mapM_id_pair.
Qed.

(** One turn of the loop of [add] on a record: the membership test
    compares an identifier with tuples, so the record is appended. *)
Lemma add_loop_step (fuel : nat) (first other : t) (i : nat) (s : state)
    (a b : list Cve) (o : Cve) :
  heap s !! results first = Some (Rec <$> a) ->
  heap s !! results other = Some (Rec <$> b) ->
  b !! i = Some o ->
  add_loop (S fuel) first other i s
  = add_loop fuel first other (S i)
      (mkState (<[results first := Rec <$> (a ++ [o])]> (heap s)) (trace s)).
Proof.
  intros Ha Hb Ho. cbn [add_loop]. rewrite Hb.
  change (default [] (Some (Rec <$> b))) with (Rec <$> b).
  rewrite list_lookup_fmap, Ho. cbn [fmap option_fmap option_map].
  unfold mbind at 1. cbn [lift attr_cve_id].
  unfold mbind at 1. rewrite (get_cve_id_list_records first false a s Ha).
  rewrite py_in_tuples.
  2:{ apply Forall_fmap, Forall_forall. intros c _. eexists. reflexivity. }
  cbn [negb]. unfold mbind, list_append.
  rewrite (alter_insert _ _ _ _ Ha), fmap_app. reflexivity.
Qed.

Lemma add_loop_end (fuel : nat) (first other : t) (i : nat) (s : state) (l : list item) :
  heap s !! results other = Some l -> (length l <= i)%nat ->
  add_loop (S fuel) first other i s = Returns tt s.
Proof.
  intros Hb Hi. cbn [add_loop]. rewrite Hb.
  change (default [] (Some l)) with l.
  rewrite lookup_ge_None_2 by exact Hi. reflexivity.
Qed.

(** Over two different list objects the loop appends every record of
    [other] that is still ahead of the iterator. *)
Lemma add_loop_appends (first other : t) (b_rest : list Cve) :
  forall (fuel : nat) (b_done a : list Cve) (s : state),
    results first <> results other ->
    heap s !! results first = Some (Rec <$> a) ->
    heap s !! results other = Some (Rec <$> (b_done ++ b_rest)) ->
    (length b_rest < fuel)%nat ->
    add_loop fuel first other (length b_done) s
    = Returns tt (mkState (<[results first := Rec <$> (a ++ b_rest)]> (heap s)) (trace s)).
Proof.
  induction b_rest as [|o rest IH]; intros fuel b_done a s Hne Ha Hb Hfuel.
  - destruct fuel as [|fuel]; [simpl in Hfuel; lia|].
    rewrite (add_loop_end fuel first other _ s _ Hb).
    + rewrite app_nil_r, list_insert_id by exact Ha. rewrite state_eta. reflexivity.
    + rewrite length_fmap, app_nil_r. lia.
  - destruct fuel as [|fuel]; [simpl in Hfuel; lia|].
    rewrite (add_loop_step fuel first other _ s a (b_done ++ o :: rest) o Ha Hb).
    2:{ rewrite lookup_app_r, Nat.sub_diag by lia. reflexivity. }
    replace (S (length b_done)) with (length (b_done ++ [o]))
      by (rewrite length_app; simpl; lia).
    rewrite (IH fuel (b_done ++ [o]) (a ++ [o])); cbn [heap trace].
    + rewrite list_insert_insert_eq, <- app_assoc. reflexivity.
    + exact Hne.
    + apply list_lookup_insert_eq. eapply lookup_lt_Some; eauto.
    + rewrite list_lookup_insert_ne by exact Hne. rewrite <- app_assoc. exact Hb.
    + simpl in Hfuel. lia.
Qed.

(** [add] over two different list objects: every record of [other] goes
    to the end of the list of [first], which the returned set shares. *)
Lemma add_appends_all (fuel : nat) (first other : t) (a b : list Cve) (s : state) :
  results first <> results other ->
  heap s !! results first = Some (Rec <$> a) ->
  heap s !! results other = Some (Rec <$> b) ->
  (length b < fuel)%nat ->
  add fuel first other s
  = Returns (mk (results first) None)
      (mkState (<[results first := Rec <$> (a ++ b)]> (heap s)) (trace s)).
Proof.
  intros Hne Ha Hb Hfuel. unfold add, mbind.
  pose proof (add_loop_appends first other b fuel [] a s Hne Ha Hb Hfuel) as Hloop.
  cbn [length] in Hloop. rewrite Hloop. reflexivity.
Qed.

(** When [other] is [first] itself the iterator never reaches the end of
    the list it is growing. *)
Lemma add_loop_alias_diverges (fuel : nat) (self : t) :
  forall (i : nat) (a : list Cve) (s : state),
    heap s !! results self = Some (Rec <$> a) ->
    (i < length a)%nat ->
    add_loop fuel self self i s = OutOfFuel.
Proof.
  induction fuel as [|fuel IH]; intros i a s Ha Hi; [reflexivity|].
  destruct (lookup_lt_is_Some_2 a i Hi) as [o Ho].
  rewrite (add_loop_step fuel self self i s a a o Ha Ha Ho).
  apply (IH (S i) (a ++ [o])); cbn [heap].
  - apply list_lookup_insert_eq. eapply lookup_lt_Some; eauto.
  - rewrite length_app. simpl. lia.
Qed.

Lemma add_alias_diverges (fuel : nat) (self : t) (a : list Cve) (s : state) :
  heap s !! results self = Some (Rec <$> a) -> a <> [] ->
  add fuel self self s = OutOfFuel.
Proof.
  intros Ha Hne. unfold add, mbind.
  rewrite (add_loop_alias_diverges fuel self 0 a s Ha); [reflexivity|].
  destruct a; [congruence|simpl; lia].
Qed.

(** Whatever [add] returns was built by the list branch of [__init__]. *)
Lemma add_returns_shared (fuel : nat) (first other merged : t) (s s' : state) :
  add fuel first other s = Returns merged s' ->
  merged = mk (results first) None.
Proof.
  unfold add. intros Hadd.
  apply mbind_returns in Hadd as (_ & s1 & _ & Hinit).
  unfold __init__, ret in Hinit. congruence.
Qed.

(** X16.  On a result set that holds at least one record [get_latest]
    returns the first record whose published date is greatest, and
    changes nothing. *)
Lemma get_latest_first_max (self : t) (s : state) (cs : list Cve) :
  heap s !! results self = Some (Rec <$> cs) -> cs <> [] ->
  exists m,
    get_latest self s = Returns (Some (Rec m)) s
    /\ first_max attr_published_date (Rec <$> cs) (Rec m).
Proof.
  intros Hr Hne.
  destruct (py_max_first_max attr_published_date (Rec <$> cs)) as (x & Hmax & Hfirst).
  - destruct cs; [congruence|discriminate].
  - intros y Hy. apply list_elem_of_fmap in Hy as (c & -> & _). eexists. reflexivity.
  - assert (exists m, x = Rec m) as [m ->].
    { destruct Hfirst as (i & _ & Hi & _). apply list_lookup_fmap_Some in Hi as (c & -> & _).
      eauto. }
    exists m. split; [|exact Hfirst].
    unfold get_latest, mbind. rewrite (read_list_records _ _ _ Hr).
    unfold lift. rewrite Hmax. reflexivity.
Qed.

(** X17.  On every result set whose list is empty [get_latest] raises
    [ValueError], and changes nothing. *)
Lemma get_latest_empty (self : t) (s : state) :
  heap s !! results self = Some [] -> get_latest self s = Raises ValueError s.
Proof.
  intros Hr. unfold get_latest, mbind. rewrite (read_list_records _ _ _ Hr). reflexivity.
Qed.

Lemma severity_ranking_labelled (c : Cve) :
  labelled c -> exists rank, _severity_ranking (Rec c) = Ok rank.
Proof.
  intros (label & Hsev & Hin). unfold _severity_ranking. cbn [attr_severity rbind].
  rewrite Hsev. unfold SEVERITY_LABELS in Hin.
  repeat (apply elem_of_cons in Hin as [->|Hin]; [eexists; reflexivity|]).
  apply elem_of_nil in Hin. destruct Hin.
Qed.

(** C7.  On a result set whose records carry labels of the enumeration,
    [get_max_severity] returns [None] when the set is empty and otherwise
    the severity of the first record of greatest rank, the labels UNKNOWN,
    LOW, MEDIUM, HIGH, CRITICAL having the ranks -1, 0, 1, 2, 3; the call
    changes nothing. *)
Theorem get_max_severity_first_max (self : t) (s : state) (cs : list Cve) :
  heap s !! results self = Some (Rec <$> cs) ->
  Forall labelled cs ->
  (fun label => dict_get label severities) <$> SEVERITY_LABELS
    = Some <$> [-1; 0; 1; 2; 3]
  /\ (forall c label, severity c = JStr label ->
        _severity_ranking (Rec c)
        = match dict_get label severities with
          | Some rank => Ok rank
          | None => Raise KeyError
          end)
  /\ (cs = [] -> get_max_severity self s = Returns JNull s)
  /\ (cs <> [] ->
      exists m,
        get_max_severity self s = Returns (severity m) s
        /\ first_max _severity_ranking (Rec <$> cs) (Rec m)).
Proof.
  intros Hr Hlab. split; [reflexivity|]. split; [|split].
  - intros c label Hsev. unfold _severity_ranking. cbn [attr_severity rbind].
    rewrite Hsev. reflexivity.
  - intros ->. unfold get_max_severity, mbind.
    rewrite (read_list_records _ _ _ Hr). reflexivity.
  - intros Hne.
    destruct (py_max_first_max _severity_ranking (Rec <$> cs)) as (x & Hmax & Hfirst).
    + destruct cs; [congruence|discriminate].
    + intros y Hy. apply list_elem_of_fmap in Hy as (c & -> & Hc).
      apply severity_ranking_labelled. rewrite Forall_forall in Hlab. auto.
    + assert (exists m, x = Rec m) as [m ->].
      { destruct Hfirst as (i & _ & Hi & _).
        apply list_lookup_fmap_Some in Hi as (c & -> & _). eauto. }
      exists m. split; [|exact Hfirst].
      unfold get_max_severity, mbind. rewrite (read_list_records _ _ _ Hr).
      destruct cs as [|c0 cs]; [congruence|]. rewrite fmap_cons.
      rewrite <- fmap_cons. unfold lift at 1. rewrite Hmax. reflexivity.
Qed.

(** C8.  With [make_urls] set, [get_cve_id_list] returns one pair per
    record, in storage order, of the identifier and the detail prefix
    followed by the identifier; the state it returns is the state it got,
    so no request was sent: [get_url] runs with [check_is_up] false. *)
Theorem get_cve_id_list_urls (self : t) (s : state) (cs : list Cve) :
  heap s !! results self = Some (Rec <$> cs) ->
  get_cve_id_list self true s
  = Returns
      ((fun c => id_tuple (cve_id c) (JStr (DETAIL_VIEW_PREFIX +:+ py_str (cve_id c))))
         <$> cs) s
  /\ (forall c, get_url c false s
              = Returns (JStr (DETAIL_VIEW_PREFIX +:+ py_str (cve_id c))) s)
  /\ (forall c id, cve_id c = JStr id -> py_str (cve_id c) = id).
Proof.
  intros Hr. split; [|split].
  - rewrite (get_cve_id_list_records self true cs s Hr). reflexivity.
  - intros c. apply get_url_unchecked.
  - intros c id ->. reflexivity.
Qed.

(** C2, as amended.  Over two different list objects [add] returns a set
    that shares the list of [first] and updates that list in place: it
    then holds the former records of [first] followed by records kept from
    [other], in order, and among the kept ones is, for every identifier
    that [first] lacked, the first record of [other] that carries it; the
    list of [other], every other list and the request log are
    unchanged. *)
Theorem add_updates_first_in_place (fuel : nat) (first other : t) (a b : list Cve)
    (s : state) :
  results first <> results other ->
  heap s !! results first = Some (Rec <$> a) ->
  heap s !! results other = Some (Rec <$> b) ->
  (length b < fuel)%nat ->
  exists merged s' kept,
    add fuel first other s = Returns merged s'
    /\ results merged = results first
    /\ sublist kept b
    /\ (forall i o,
          b !! i = Some o ->
          has_identifier (cve_id o) a = false ->
          has_identifier (cve_id o) (take i b) = false ->
          o ∈ kept)
    /\ heap s' !! results first = Some (Rec <$> (a ++ kept))
    /\ heap s' !! results other = Some (Rec <$> b)
    /\ (forall r, r <> results first -> heap s' !! r = heap s !! r)
    /\ trace s' = trace s.
Proof.
  intros Hne Ha Hb Hfuel.
  eexists _, _, b. rewrite (add_appends_all fuel first other a b s Hne Ha Hb Hfuel).
  split; [reflexivity|]. cbn [results heap trace]. split; [reflexivity|].
  split; [reflexivity|]. split; [|split; [|split; [|split]]].
  - intros i o Hi _ _. eapply list_elem_of_lookup_2; eauto.
  - apply list_lookup_insert_eq. eapply lookup_lt_Some; eauto.
  - rewrite list_lookup_insert_ne by exact Hne. exact Hb.
  - intros r Hr. apply list_lookup_insert_ne. congruence.
  - reflexivity.
Qed.

Lemma reduce_add_count (fuel : nat) (sets : list t) :
  forall (acc merged : t) (s s' : state),
    num_results acc = None ->
    reduce (add fuel) sets acc s = Returns merged s' ->
    num_results merged = None.
Proof.
  induction sets as [|x sets IH]; intros acc merged s s' Hacc Hred.
  - cbn in Hred. unfold ret in Hred. congruence.
  - cbn [reduce] in Hred. apply mbind_returns in Hred as (acc' & s1 & Hadd & Hred).
    apply add_returns_shared in Hadd as ->. eapply IH; [|exact Hred]. reflexivity.
Qed.

(** C10.  A result set built from a list has no count: the list branch of
    [__init__] leaves [num_results] unassigned, and so does every set that
    [add] or [search_by_name_and_date] returns, the seed of the fold
    included. *)
Theorem list_constructed_has_no_count :
  (forall (r : loc) (s : state), __init__ (ArgList r) s = Returns (mk r None) s)
  /\ (forall fuel first other s merged s',
        add fuel first other s = Returns merged s' -> num_results merged = None)
  /\ (forall fuel first other a b s,
        results first <> results other ->
        heap s !! results first = Some (Rec <$> a) ->
        heap s !! results other = Some (Rec <$> b) ->
        (length b < fuel)%nat ->
        exists merged s',
          add fuel first other s = Returns merged s' /\ num_results merged = None)
  /\ (forall (s : state),
        exists seed s',
          (let* empty := new_list [] in __init__ (ArgList empty)) s = Returns seed s'
          /\ num_results seed = None)
  /\ (forall api fuel now keyword start_date s merged s',
        NvdApi.search_by_name_and_date api fuel now keyword start_date s
          = Returns merged s' ->
        num_results merged = None).
Proof.
  split; [reflexivity|]. split; [|split; [|split]].
  - intros fuel first other s merged s' Hadd.
    apply add_returns_shared in Hadd as ->. reflexivity.
  - intros fuel first other a b s Hne Ha Hb Hfuel.
    eexists _, _. rewrite (add_appends_all fuel first other a b s Hne Ha Hb Hfuel).
    split; reflexivity.
  - intros s. eexists _, _. split; reflexivity.
  - intros api fuel now keyword [start|] s merged s' Hsearch; [|discriminate].
    unfold NvdApi.search_by_name_and_date in Hsearch.
    apply mbind_returns in Hsearch as (ranges & s1 & _ & Hsearch).
    apply mbind_returns in Hsearch as (sets & s2 & _ & Hsearch).
    apply mbind_returns in Hsearch as (empty & s3 & _ & Hsearch).
    apply mbind_returns in Hsearch as (seed & s4 & Hseed & Hsearch).
    eapply reduce_add_count; [|exact Hsearch].
    unfold __init__, ret in Hseed. injection Hseed as <- _. reflexivity.
Qed.

End ResultSets.

(** ** Date ranges *)

Section DateRanges.
Import NvdApi.

Lemma max_delta_pos : 0 < max_delta.
Proof. reflexivity. Qed.

Lemma dt_add_ok d t x : dt_add d t = Ok x -> x = d + t /\ 0 <= d + t <= DT_MAX.
Proof.
  unfold dt_add. destruct (_ && _) eqn:E; [|discriminate].
  intros [= <-]. apply andb_true_iff in E as [?%Z.leb_le ?%Z.leb_le]. lia.
Qed.

Lemma dt_add_raise d t e : dt_add d t = Raise e -> ~ (0 <= d + t <= DT_MAX).
Proof.
  unfold dt_add. destruct (_ && _) eqn:E; [discriminate|].
  intros _ [? ?]. apply andb_false_iff in E as [E|E]; [apply Z.leb_gt in E|apply Z.leb_gt in E]; lia.
Qed.

Lemma chunk_shift curr n :
  chunk (curr + max_delta) <$> seq 0 n = chunk curr <$> seq 1 n.
Proof.
  rewrite <- (fmap_S_seq 0). rewrite <- list_fmap_compose.
  apply list_fmap_ext. intros _ k _. unfold chunk. simpl. f_equal; lia.
Qed.

Lemma ranges_loop_closed now curr acc :
  0 <= curr -> now <= DT_MAX ->
  exists n : nat,
    ranges_loop now curr acc
      = Ok (acc ++ (chunk curr <$> seq 0 n) ++ [(curr + Z.of_nat n * max_delta, now)])
    /\ now - (curr + Z.of_nat n * max_delta) <= max_delta
    /\ (n <> 0%nat -> Z.of_nat n * max_delta < now - curr).
Proof.
  funelim (ranges_loop now curr acc); intros Hlo Hhi;
    pose proof max_delta_pos as HD; unfold dt_sub in *;
    repeat match goal with
           | H : sigmaI _ _ _ = sigmaI _ _ _ |- _ => clear H
           | H : _ = ranges_loop _ _ _ |- _ => clear H
           end.
  - exists 0%nat. simpl. rewrite Z.add_0_r.
    split; [reflexivity|]. split; [|congruence].
    match goal with E : (_ >? _) = false |- _ =>
      destruct (Z.gtb_spec (now - curr_date) max_delta); [discriminate E|lia] end.
  - apply dt_add_ok in Hnext as [-> Hrange]. apply Z.gtb_lt in Hgt.
    match goal with IH : _ -> _ -> exists _, _ |- _ =>
      destruct IH as (n & Heq & Hlast & Hfull); [lia|lia|] end.
    exists (S n). rewrite Heq. split; [|split].
    + f_equal. rewrite <- !app_assoc. f_equal.
      rewrite chunk_shift. simpl seq. rewrite fmap_cons. simpl.
      unfold chunk at 2. simpl. rewrite Z.add_0_r, Z.mul_1_l.
      replace (curr_date + Z.of_nat (S n) * max_delta)
        with (curr_date + max_delta + Z.of_nat n * max_delta) by lia.
      reflexivity.
    + lia.
    + intros _. destruct n; [lia|]. specialize (Hfull ltac:(lia)). lia.
  - exfalso. apply Z.gtb_lt in Hgt.
    match goal with E : dt_add _ _ = Raise _ |- _ =>
      apply dt_add_raise in E; apply E; lia end.
Qed.

Lemma ranges_of_length start now n : length (ranges_of start now n) = S n.
Proof. unfold ranges_of. rewrite length_app, length_fmap, length_seq. simpl. lia. Qed.

Lemma ranges_of_lookup start now n k r :
  ranges_of start now n !! k = Some r <->
  (k < n)%nat /\ r = chunk start k \/ k = n /\ r = (start + Z.of_nat n * max_delta, now).
Proof.
  unfold ranges_of. rewrite lookup_app_Some, list_lookup_fmap, length_fmap, length_seq.
  split.
  - intros [H|[Hle H]].
    + destruct (seq 0 n !! k) as [k'|] eqn:E; [|discriminate].
      apply lookup_seq in E as [-> ?]. simpl in H. left. split; [lia|congruence].
    + right. destruct (k - n)%nat eqn:E; simpl in H; [|destruct n0; discriminate].
      split; [lia|congruence].
  - intros [[Hlt ->]|[-> ->]].
    + left. rewrite lookup_seq_lt by lia. reflexivity.
    + right. split; [lia|]. rewrite Nat.sub_diag. reflexivity.
Qed.

Lemma date_ranges_closed now start :
  dt_valid start -> dt_valid now ->
  exists n : nat,
    date_ranges now start = Ok (ranges_of start now n)
    /\ now - (start + Z.of_nat n * max_delta) <= max_delta
    /\ (n <> 0%nat -> Z.of_nat n * max_delta < now - start).
Proof.
  intros [Hs _] [_ Hn]. unfold date_ranges.
  destruct (ranges_loop_closed now start [] Hs Hn) as (n & Heq & H1 & H2).
  exists n. rewrite Heq. auto.
Qed.

Lemma chunk_nonneg (k : nat) : 0 <= Z.of_nat k * max_delta.
Proof. apply Z.mul_nonneg_nonneg; [|unfold max_delta, days]; lia. Qed.

Lemma chunk_mono (i j : nat) :
  (i < j)%nat -> (Z.of_nat i + 1) * max_delta <= Z.of_nat j * max_delta.
Proof. intros Hij. apply Z.mul_le_mono_nonneg_r; [unfold max_delta, days|]; lia. Qed.

(** Case analysis on the position of a range, keeping [max_delta] as an
    atom, with the ordering of the chunk ends that [lia] then needs. *)
Ltac ranges_cases :=
  repeat match goal with
         | H : ranges_of _ _ _ !! _ = Some _ |- _ =>
             apply ranges_of_lookup in H as [[? ?]|[? ?]]
         end;
  simplify_eq; unfold within, chunk in *; simpl fst in *; simpl snd in *;
  repeat match goal with
         | H : (?i < ?j)%nat |- _ =>
             lazymatch goal with
             | _ : (Z.of_nat i + 1) * max_delta <= Z.of_nat j * max_delta |- _ => fail
             | _ => pose proof (chunk_mono i j H)
             end
         end;
  repeat match goal with
         | |- context [Z.of_nat ?k * max_delta] =>
             lazymatch goal with
             | _ : 0 <= Z.of_nat k * max_delta |- _ => fail
             | _ => pose proof (chunk_nonneg k)
             end
         | _ : context [Z.of_nat ?k * max_delta] |- _ =>
             lazymatch goal with
             | _ : 0 <= Z.of_nat k * max_delta |- _ => fail
             | _ => pose proof (chunk_nonneg k)
             end
         end;
  pose proof max_delta_pos.

(** C5.  For valid dates with [start < now] the loop returns ranges that
    cover [[start, now)]: every instant of it lies in a range, the ranges
    are non-empty and inside it, no instant lies in two of them, each
    begins where the one before ends, none is longer than 120 days, and
    the last one ends at [now].  For [now <= start] the only range is
    [(start, now)]. *)
Theorem date_ranges_partition now start :
  dt_valid start -> dt_valid now ->
  (start < now ->
   exists rs,
     date_ranges now start = Ok rs
     /\ (forall t, start <= t < now -> exists k r, rs !! k = Some r /\ within t r)
     /\ (forall k r, rs !! k = Some r -> start <= fst r /\ fst r < snd r /\ snd r <= now)
     /\ (forall i j ri rj t,
           rs !! i = Some ri -> rs !! j = Some rj -> within t ri -> within t rj -> i = j)
     /\ (forall k r r', rs !! k = Some r -> rs !! S k = Some r' -> snd r = fst r')
     /\ (forall k r, rs !! k = Some r -> snd r - fst r <= days 120)
     /\ (exists a, last rs = Some (a, now)))
  /\ (now <= start -> date_ranges now start = Ok [(start, now)]).
Proof.
  intros Hs Hn.
  destruct (date_ranges_closed now start Hs Hn) as (n & Heq & Hlast & Hfull).
  rewrite Heq. split.
  - intros Hlt. exists (ranges_of start now n). split; [reflexivity|].
    assert (Hn' : Z.of_nat n * max_delta < now - start)
      by (destruct n; [simpl; lia|apply Hfull; lia]).
    split; [|split; [|split; [|split; [|split]]]].
    + intros t Ht.
      destruct (Z_lt_le_dec t (start + Z.of_nat n * max_delta)) as [Hin|Hin].
      * exists (Z.to_nat ((t - start) / max_delta)), (chunk start (Z.to_nat ((t - start) / max_delta))).
        assert (0 <= (t - start) / max_delta) by (apply Z.div_pos; [lia|reflexivity]).
        assert ((t - start) / max_delta < Z.of_nat n)
          by (apply Z.div_lt_upper_bound; [reflexivity|lia]).
        split.
        -- apply ranges_of_lookup. left. split; [lia|reflexivity].
        -- unfold within, chunk. simpl. rewrite Z2Nat.id by lia.
           pose proof (Z.mul_div_le (t - start) max_delta ltac:(reflexivity)).
           pose proof (Z.mul_succ_div_gt (t - start) max_delta ltac:(reflexivity)).
           lia.
      * exists n, (start + Z.of_nat n * max_delta, now).
        split; [apply ranges_of_lookup; right; auto|]. unfold within. simpl. lia.
    + intros k r Hk. ranges_cases; lia.
    + intros i j ri rj t Hi Hj Hti Htj.
      destruct (Nat.lt_trichotomy i j) as [Hij|[Hij|Hij]]; [|exact Hij|];
        exfalso; ranges_cases; lia.
    + intros k r r' Hk Hk'. ranges_cases; lia.
    + intros k r Hk. change (days 120) with max_delta. ranges_cases; lia.
    + exists (start + Z.of_nat n * max_delta). unfold ranges_of. apply last_snoc.
  - intros Hge. pose proof max_delta_pos.
    destruct n as [|n]; [|specialize (Hfull ltac:(lia)); lia].
    unfold ranges_of. simpl. rewrite Z.add_0_r. reflexivity.
Qed.

(** C9.  For valid dates with [start < now], the range of index [k]
    begins at [start] plus [k] times 120 days, and every range but the
    last is exactly 120 days long. *)
Theorem date_ranges_full_chunks now start :
  dt_valid start -> dt_valid now -> start < now ->
  exists rs,
    date_ranges now start = Ok rs
    /\ forall k r, rs !! k = Some r ->
         fst r = start + Z.of_nat k * days 120
         /\ ((S k < length rs)%nat -> snd r - fst r = days 120).
Proof.
  intros Hs Hn _.
  destruct (date_ranges_closed now start Hs Hn) as (n & Heq & _ & _).
  exists (ranges_of start now n). split; [exact Heq|].
  intros k r Hk. rewrite ranges_of_length. change (days 120) with max_delta.
  ranges_cases; split; try reflexivity; lia.
Qed.

End DateRanges.

(** ** Parsing an item, and the single lookup *)

Section Parsing.
Context `{Env}.

(** C6, as amended.  Once the dates and the identifier of an item have
    been read: an [impact] that is the empty object gives the severity
    UNKNOWN; any other [impact] gives the severity found under
    [baseMetricV2], or the exception of that read; an item that has no
    [impact] key gives no record but a [KeyError]. *)
Theorem result_to_cve_severity (result_json m p id : json) (mod_date pub_date : datetime) :
  getitem result_json "lastModifiedDate" = Ok m ->
  py_strptime m DATE_FORMAT = Ok mod_date ->
  getitem result_json "publishedDate" = Ok p ->
  py_strptime p DATE_FORMAT = Ok pub_date ->
  (let? cve := getitem result_json "cve" in
   let? meta := getitem cve "CVE_data_meta" in
   getitem meta "ID") = Ok id ->
  (getitem result_json "impact" = Ok (JObj []) ->
   result_to_cve result_json = Ok (mkCve id pub_date mod_date (JStr "UNKNOWN")))
  /\ (forall impact,
        getitem result_json "impact" = Ok impact -> impact <> JObj [] ->
        result_to_cve result_json
        = (let? v2 := getitem impact "baseMetricV2" in
           let? sev := getitem v2 "severity" in
           Ok (mkCve id pub_date mod_date sev)))
  /\ (forall fields,
        result_json = JObj fields -> dict_get "impact" fields = None ->
        result_to_cve result_json = Raise KeyError).
Proof.
  intros Hm Hmod Hp Hpub Hid. unfold result_to_cve.
  rewrite Hm. cbn [rbind]. rewrite Hmod. cbn [rbind].
  rewrite Hp. cbn [rbind]. rewrite Hpub. cbn [rbind].
  destruct (getitem result_json "cve") as [cve|]; [|discriminate]. cbn [rbind] in *.
  destruct (getitem cve "CVE_data_meta") as [meta|]; [|discriminate]. cbn [rbind] in *.
  rewrite Hid. cbn [rbind]. split; [|split].
  - intros ->. reflexivity.
  - intros impact -> Hne. cbn [rbind].
    destruct (json_eq impact (JObj [])) eqn:E.
    + apply json_eq_empty_dict in E. contradiction.
    + cbn [rbind]. destruct (getitem impact "baseMetricV2") as [v2|]; [|reflexivity].
      cbn [rbind]. destruct (getitem v2 "severity"); reflexivity.
  - intros fields -> Hnone. cbn [getitem]. rewrite Hnone. reflexivity.
Qed.

(** X18.  A successful response whose body is a dict with a [message]
    key makes [search_by_id] raise [AttributeError], whatever the message
    and the count of results are: the call of [contains] on the message
    fails.  One request has been sent. *)
Lemma search_by_id_message (self : NvdApi.t) (cve_id : string) (resp : response)
    (fields : list (string * json)) (s : state) :
  requests_get (_SEARCH_URL_SPECIFIC +:+ "/" +:+ cve_id) [] false = Ok resp ->
  ok resp = true -> body resp = Ok (JObj fields) ->
  dict_get "message" fields <> None ->
  NvdApi.search_by_id self cve_id s
  = Raises AttributeError
      (mkState (heap s)
         (trace s ++ [EvGet (_SEARCH_URL_SPECIFIC +:+ "/" +:+ cve_id) []])).
Proof.
  intros Hget Hok Hbody Hmsg.
  unfold NvdApi.search_by_id, NvdApi._request_specific_by_id, NvdApi._perform_request.
  unfold mbind, log, lift. rewrite Hget, Hok, Hbody. cbn [py_keys].
  apply dict_get_keys in Hmsg as Hkeys. rewrite Hkeys.
  cbn [getitem]. destruct (dict_get "message" fields) as [msg|]; [|congruence].
  destruct msg; reflexivity.
Qed.

End Parsing.

(** ** Closed examples on the test double *)

Import CveResultList.

(** C1.  [add] on two sets that each hold a record of identifier CVE-1
    returns both records, and [add] of a set with itself never ends: the
    membership test of the loop compares an identifier with the pairs of
    [get_cve_id_list], so it never finds one. *)
Theorem add_keeps_duplicate_identifiers :
  add (H := sample_env) 2 set_A set_B two_lists
  = Returns set_A (mkState [[Rec cve1_high; Rec cve1_low]; [Rec cve1_low]; []] [])
  /\ (forall fuel, add (H := sample_env) fuel set_A set_A two_lists = OutOfFuel).
Proof.
  split; [reflexivity|].
  intros fuel. apply (add_alias_diverges fuel set_A [cve1_high] two_lists);
    [reflexivity|discriminate].
Qed.

(** The scenario of two chunks that share CVE-2: the fold keeps both
    records of CVE-2, and the greatest severity is the second one's. *)
Example search_fold_keeps_duplicates :
  (let* found :=
     NvdApi.search_by_name_and_date (H := sample_env) (NvdApi.__init__ None) 3
       T_2020_06_01 "test" (Some T_2020_01_01) in
   let* ids := get_cve_id_list (H := sample_env) found false in
   let* top := get_max_severity found in
   ret (ids, top)) no_lists
  = Returns
      ([id_tuple (JStr "CVE-1") JNull; id_tuple (JStr "CVE-2") JNull;
        id_tuple (JStr "CVE-2") JNull; id_tuple (JStr "CVE-3") JNull],
       JStr "CRITICAL")
      (mkState
         [[Rec cve1_high; Rec cve2_low]; [Rec cve2_critical; Rec cve3_medium];
          [Rec cve1_high; Rec cve2_low; Rec cve2_critical; Rec cve3_medium]]
         [EvGet _SEARCH_URL_MULTI
            [("keyword", "test");
             ("pubStartDate", "2020-01-01T00:00:00:000 UTC-05:00");
             ("pubEndDate", "2020-04-30T00:00:00:000 UTC-05:00")];
          EvGet _SEARCH_URL_MULTI
            [("keyword", "test");
             ("pubStartDate", "2020-04-30T00:00:00:000 UTC-05:00");
             ("pubEndDate", "2020-06-01T00:00:00:000 UTC-05:00")]]).
Proof. vm_compute. reflexivity. Qed.

(** C2, refuted as stated, on two sets that share no identifier, where a
    union has to take the record of the second: after [add] the list of
    the first operand holds that record too, and is no longer what it
    was. *)
Lemma add_mutates_first_operand :
  has_identifier (cve_id cve2_low) [cve1_high] = false
  /\ exists merged s',
       add (H := sample_env) 2 set_A set_B disjoint_lists = Returns merged s'
       /\ heap disjoint_lists !! results set_A = Some [Rec cve1_high]
       /\ heap s' !! results set_A = Some [Rec cve1_high; Rec cve2_low].
Proof.
  split; [reflexivity|]. eexists _, _. split; [reflexivity|]. split; reflexivity.
Qed.

Lemma add_updates_first_in_place_witness :
  exists merged s' kept,
    add (H := sample_env) 2 set_A set_B disjoint_lists = Returns merged s'
    /\ results merged = results set_A
    /\ sublist kept [cve2_low]
    /\ (forall i o,
          [cve2_low] !! i = Some o ->
          has_identifier (cve_id o) [cve1_high] = false ->
          has_identifier (cve_id o) (take i [cve2_low]) = false ->
          o ∈ kept)
    /\ heap s' !! results set_A = Some (Rec <$> ([cve1_high] ++ kept))
    /\ heap s' !! results set_B = Some (Rec <$> [cve2_low])
    /\ (forall r, r <> results set_A -> heap s' !! r = heap disjoint_lists !! r)
    /\ trace s' = trace disjoint_lists.
Proof.
  apply (add_updates_first_in_place (H := sample_env) 2 set_A set_B
           [cve1_high] [cve2_low] disjoint_lists);
    [discriminate|reflexivity|reflexivity|simpl; lia].
Defined.

(** C3.  A body that reports "Unable to find vuln" and zero results, and
    a body that has a message beside one result, both end in an
    [AttributeError]: neither the [APIError] nor the result set. *)
Theorem search_by_id_message_attribute_error :
  NvdApi.search_by_id (H := sample_env) (NvdApi.__init__ None) "CVE-0000-0000" no_lists
  = Raises AttributeError
      (mkState [] [EvGet (_SEARCH_URL_SPECIFIC +:+ "/CVE-0000-0000") []])
  /\ NvdApi.search_by_id (H := sample_env) (NvdApi.__init__ None) "CVE-1" no_lists
     = Raises AttributeError (mkState [] [EvGet (_SEARCH_URL_SPECIFIC +:+ "/CVE-1") []]).
Proof. split; reflexivity. Qed.

(** Without a message the two other outcomes are as documented. *)
Example search_by_id_without_message :
  NvdApi.search_by_id (H := sample_env) (NvdApi.__init__ None) "CVE-2" no_lists
  = Returns (mk 0%nat (Some (JNum 1)))
      (mkState [[Rec cve2_low]] [EvGet (_SEARCH_URL_SPECIFIC +:+ "/CVE-2") []])
  /\ NvdApi.search_by_id (H := sample_env) (NvdApi.__init__ None) "CVE-7" no_lists
     = Raises APIError (mkState [] [EvGet (_SEARCH_URL_SPECIFIC +:+ "/CVE-7") []]).
Proof. split; reflexivity. Qed.

(** C4.  On the empty result set [get_latest] raises [ValueError], where
    [get_max_severity] returns [None]. *)
Theorem get_latest_empty_raises :
  get_latest set_empty two_lists = Raises ValueError two_lists
  /\ get_max_severity set_empty two_lists = Returns JNull two_lists.
Proof. split; reflexivity. Qed.

(** C6, refuted as stated: an item without an [impact] key yields no
    record. *)
Lemma absent_impact_raises_key_error :
  getitem item_without_impact "impact" = Raise KeyError
  /\ result_to_cve (H := sample_env) item_without_impact = Raise KeyError.
Proof. split; reflexivity. Qed.

Lemma result_to_cve_severity_witness :
  result_to_cve (H := sample_env) (sample_item "CVE-1" (JObj []))
  = Ok (mkCve (JStr "CVE-1") T_2021_01_01_10h T_2021_03_05_08h30 (JStr "UNKNOWN")).
Proof.
  exact (proj1 (result_to_cve_severity (H := sample_env)
                  (sample_item "CVE-1" (JObj []))
                  (JStr "2021-03-05T08:30Z") (JStr "2021-01-01T10:00Z") (JStr "CVE-1")
                  T_2021_03_05_08h30 T_2021_01_01_10h
                  eq_refl eq_refl eq_refl eq_refl eq_refl) eq_refl).
Defined.

Lemma get_max_severity_first_max_witness :
  exists m,
    get_max_severity (mk 0%nat None) three_severities
    = Returns (severity m) three_severities
    /\ first_max _severity_ranking
         (Rec <$> [cve1_high; cve2_critical; cve2_low]) (Rec m).
Proof.
  apply (get_max_severity_first_max (mk 0%nat None) three_severities
           [cve1_high; cve2_critical; cve2_low]).
  - reflexivity.
  - repeat (apply List.Forall_cons;
            [eexists; split;
             [reflexivity
             |unfold SEVERITY_LABELS;
              repeat first [apply list_elem_of_here | apply list_elem_of_further]]|]).
    apply List.Forall_nil.
  - discriminate.
Defined.

Example get_max_severity_critical :
  get_max_severity (mk 0%nat None) three_severities
  = Returns (JStr "CRITICAL") three_severities.
Proof. reflexivity. Qed.

(** The checker of the test double answers 404 to every probe; the URL
    is returned all the same, and the log stays empty. *)
Lemma get_cve_id_list_urls_witness :
  get_cve_id_list (H := sample_env) set_A true two_lists
  = Returns
      [id_tuple (JStr "CVE-1") (JStr "https://nvd.nist.gov/vuln/detail/CVE-1")]
      two_lists.
Proof.
  exact (proj1 (get_cve_id_list_urls (H := sample_env) set_A two_lists [cve1_high] eq_refl)).
Defined.

Lemma list_constructed_has_no_count_witness :
  num_results set_A = None
  /\ exists merged s',
       add (H := sample_env) 2 set_A set_B two_lists = Returns merged s'
       /\ num_results merged = None.
Proof.
  split.
  - exact (proj1 (proj2 (list_constructed_has_no_count (H := sample_env)))
             2%nat set_A set_B two_lists set_A _ eq_refl).
  - apply (proj1 (proj2 (proj2 (list_constructed_has_no_count (H := sample_env))))
             2%nat set_A set_B [cve1_high] [cve1_low] two_lists);
      [discriminate|reflexivity|reflexivity|simpl; lia].
Defined.

Example date_ranges_2020 :
  NvdApi.date_ranges T_2020_06_01 T_2020_01_01
  = Ok [(T_2020_01_01, T_2020_04_30); (T_2020_04_30, T_2020_06_01)].
Proof. reflexivity. Qed.

Lemma date_ranges_partition_witness :
  (exists rs,
     NvdApi.date_ranges T_2020_06_01 T_2020_01_01 = Ok rs
     /\ (forall t, T_2020_01_01 <= t < T_2020_06_01 ->
           exists k r, rs !! k = Some r /\ within t r)
     /\ (forall k r, rs !! k = Some r -> snd r - fst r <= days 120)
     /\ (exists a, last rs = Some (a, T_2020_06_01)))
  /\ NvdApi.date_ranges T_2020_01_01 T_2020_06_01 = Ok [(T_2020_06_01, T_2020_01_01)].
Proof.
  assert (Hs : dt_valid T_2020_01_01) by (unfold dt_valid, T_2020_01_01, DT_MAX; lia).
  assert (Hn : dt_valid T_2020_06_01) by (unfold dt_valid, T_2020_06_01, DT_MAX; lia).
  assert (Hlt : T_2020_01_01 < T_2020_06_01) by reflexivity.
  split.
  - destruct (proj1 (date_ranges_partition T_2020_06_01 T_2020_01_01 Hs Hn) Hlt)
      as (rs & Heq & Hcover & _ & _ & _ & Hlen & Hlast).
    exists rs. auto.
  - apply (proj2 (date_ranges_partition T_2020_01_01 T_2020_06_01 Hn Hs)).
    unfold T_2020_01_01, T_2020_06_01. lia.
Defined.

Lemma date_ranges_full_chunks_witness :
  exists rs,
    NvdApi.date_ranges T_2020_06_01 T_2020_01_01 = Ok rs
    /\ forall k r, rs !! k = Some r ->
         fst r = T_2020_01_01 + Z.of_nat k * days 120
         /\ ((S k < length rs)%nat -> snd r - fst r = days 120).
Proof.
  apply date_ranges_full_chunks;
    [unfold dt_valid, T_2020_01_01, DT_MAX; lia
    |unfold dt_valid, T_2020_06_01, DT_MAX; lia
    |reflexivity].
Defined.

(** * The rest of the module *)

(** ** Building a result set from a payload *)

Section Payloads.
Context `{Env}.
Import CveResultList.

Lemma insert_last {A} (l : list A) (x y : A) :
  <[length l := y]> (l ++ [x]) = l ++ [y].
Proof.
  replace (length l) with (length l + 0)%nat by lia.
  rewrite insert_app_r. reflexivity.
Qed.

Lemma lookup_last {A} (l : list A) (x : A) : (l ++ [x]) !! length l = Some x.
Proof. rewrite lookup_app_r, Nat.sub_diag by lia. reflexivity. Qed.

(** The records of parsed items go to the end of the list [r], one by
    one; an item that does not parse ends the loop with its exception,
    the records before it already appended. *)
Lemma parse_items_appends (r : loc) (items : list json) (cs : list Cve) :
  parses items cs ->
  forall (l0 : list item) (s : state),
    heap s !! r = Some l0 ->
    parse_items r items s
    = Returns tt (mkState (<[r := l0 ++ (Rec <$> cs)]> (heap s)) (trace s)).
Proof.
  induction 1 as [|j c items cs Hj _ IH]; intros l0 s Hr.
  - cbn. unfold ret. rewrite app_nil_r, list_insert_id by exact Hr.
    rewrite state_eta. reflexivity.
  - cbn [parse_items]. unfold mbind at 1. rewrite Hj. cbn [lift].
    unfold mbind at 1, list_append. rewrite (alter_insert _ _ _ _ Hr).
    rewrite (IH (l0 ++ [Rec c])); cbn [heap trace].
    + rewrite list_insert_insert_eq, fmap_cons, <- app_assoc. reflexivity.
    + apply list_lookup_insert_eq. eapply lookup_lt_Some; eauto.
Qed.

Lemma parse_items_aborts (r : loc) (good : list json) (cs : list Cve)
    (bad : json) (rest : list json) (e : exn) :
  parses good cs -> result_to_cve bad = Raise e ->
  forall (l0 : list item) (s : state),
    heap s !! r = Some l0 ->
    parse_items r (good ++ bad :: rest) s
    = Raises e (mkState (<[r := l0 ++ (Rec <$> cs)]> (heap s)) (trace s)).
Proof.
  intros Hgood Hbad. induction Hgood as [|j c items cs Hj _ IH]; intros l0 s Hr.
  - cbn [app parse_items]. unfold mbind. rewrite Hbad. cbn [lift].
    rewrite app_nil_r, list_insert_id by exact Hr. rewrite state_eta. reflexivity.
  - cbn [app parse_items]. unfold mbind at 1. rewrite Hj. cbn [lift].
    unfold mbind at 1, list_append. rewrite (alter_insert _ _ _ _ Hr).
    rewrite (IH (l0 ++ [Rec c])); cbn [heap trace].
    + rewrite list_insert_insert_eq, fmap_cons, <- app_assoc. reflexivity.
    + apply list_lookup_insert_eq. eapply lookup_lt_Some; eauto.
Qed.

Lemma init_payload_records (payload n : json) (cs : list Cve) (s : state) :
  well_formed_payload payload n cs ->
  __init__ (ArgJson payload) s
  = Returns (mk (length (heap s)) (Some n)) (mkState (heap s ++ [Rec <$> cs]) (trace s)).
Proof.
  intros (fields & res & cve_items & items & -> & Hn & Hres & Hci & Hit & Hparse).
  cbn [__init__]. unfold mbind at 1, new_list.
  unfold mbind at 1, _parse_json. unfold mbind at 1. cbn [getitem].
  rewrite Hn, Hres. cbn [lift rbind]. unfold mbind at 1. rewrite Hci. cbn [rbind].
  rewrite Hit. cbn [lift]. unfold mbind at 1.
  rewrite (parse_items_appends _ items cs Hparse []); cbn [heap trace].
  - rewrite insert_last. reflexivity.
  - apply lookup_last.
Qed.

(** X1.  From a payload of the documented shape the constructor returns a
    set over a new list object that holds the parsed records in the order
    of the items, with the payload's count; the lists that existed and
    the request log are as they were. *)
Theorem init_from_payload (payload n : json) (cs : list Cve) (s : state) :
  well_formed_payload payload n cs ->
  exists self s',
    __init__ (ArgJson payload) s = Returns self s'
    /\ num_results self = Some n
    /\ heap s !! results self = None
    /\ heap s' !! results self = Some (Rec <$> cs)
    /\ (forall r l, heap s !! r = Some l -> heap s' !! r = Some l)
    /\ trace s' = trace s.
Proof.
  intros Hwf. eexists _, _. rewrite (init_payload_records payload n cs s Hwf).
  split; [reflexivity|]. cbn [results num_results heap trace].
  split; [reflexivity|]. split; [|split; [|split]].
  - apply lookup_ge_None_2. lia.
  - apply lookup_last.
  - intros r l Hr. apply lookup_app_l_Some. exact Hr.
  - reflexivity.
Qed.

(** X2.  An item that does not parse aborts the construction with the
    exception of that item: no result set is returned, however many
    items before it parsed; the lists that existed and the request log
    are as they were. *)
Theorem init_aborts_on_bad_item (fields : list (string * json)) (n res cve_items : json)
    (good : list json) (cs : list Cve) (bad : json) (rest : list json) (e : exn)
    (s : state) :
  dict_get "totalResults" fields = Some n ->
  dict_get "result" fields = Some res ->
  getitem res "CVE_Items" = Ok cve_items ->
  py_iter cve_items = Ok (good ++ bad :: rest) ->
  parses good cs ->
  result_to_cve bad = Raise e ->
  exists s',
    __init__ (ArgJson (JObj fields)) s = Raises e s'
    /\ (forall r l, heap s !! r = Some l -> heap s' !! r = Some l)
    /\ trace s' = trace s.
Proof.
  intros Hn Hres Hci Hit Hgood Hbad.
  cbn [__init__]. unfold mbind at 1, new_list.
  unfold mbind at 1, _parse_json. unfold mbind at 1. cbn [getitem].
  rewrite Hn, Hres. cbn [lift rbind]. unfold mbind at 1. rewrite Hci. cbn [rbind].
  rewrite Hit. cbn [lift]. unfold mbind at 1.
  rewrite (parse_items_aborts _ good cs bad rest e Hgood Hbad []); cbn [heap trace].
  2:{ apply lookup_last. }
  eexists. split; [reflexivity|]. cbn [heap trace]. split; [|reflexivity].
  intros r l Hr. rewrite insert_last. apply lookup_app_l_Some. exact Hr.
Qed.

End Payloads.

(** ** Parsing one item *)

Section Items.
Context `{Env}.

Lemma rbind_ok {A B} (r : result A) (k : A -> result B) (b : B) :
  rbind r k = Ok b -> exists a, r = Ok a /\ k a = Ok b.
Proof. destruct r as [a|e]; [eauto|discriminate]. Qed.

(** X3.  A record that [result_to_cve] returns holds the identifier found
    under [cve], [CVE_data_meta], [ID], the parsed [publishedDate] as its
    published date and the parsed [lastModifiedDate] as its last-modified
    date; the item is a dict that carries all four top-level keys. *)
Theorem result_to_cve_fields (result_json : json) (c : Cve) :
  result_to_cve result_json = Ok c ->
  exists fields m p cve meta impact,
    result_json = JObj fields
    /\ dict_get "lastModifiedDate" fields = Some m
    /\ py_strptime m DATE_FORMAT = Ok (last_modified_date c)
    /\ dict_get "publishedDate" fields = Some p
    /\ py_strptime p DATE_FORMAT = Ok (published_date c)
    /\ dict_get "cve" fields = Some cve
    /\ getitem cve "CVE_data_meta" = Ok meta
    /\ getitem meta "ID" = Ok (cve_id c)
    /\ dict_get "impact" fields = Some impact.
Proof.
  unfold result_to_cve. intros Hok.
  apply rbind_ok in Hok as (m & Hm & Hok).
  apply rbind_ok in Hok as (mod_date & Hmod & Hok).
  apply rbind_ok in Hok as (p & Hp & Hok).
  apply rbind_ok in Hok as (pub_date & Hpub & Hok).
  apply rbind_ok in Hok as (cve & Hcve & Hok).
  apply rbind_ok in Hok as (meta & Hmeta & Hok).
  apply rbind_ok in Hok as (id & Hid & Hok).
  apply rbind_ok in Hok as (impact & Himpact & Hok).
  apply rbind_ok in Hok as (sev & _ & Hok).
  injection Hok as <-. cbn [cve_id published_date last_modified_date].
  destruct result_json as [| | | | |fields]; try discriminate.
  cbn [getitem] in *.
  destruct (dict_get "lastModifiedDate" fields) as [m'|] eqn:Em; [|discriminate].
  destruct (dict_get "publishedDate" fields) as [p'|] eqn:Ep; [|discriminate].
  destruct (dict_get "cve" fields) as [cve'|] eqn:Ec; [|discriminate].
  destruct (dict_get "impact" fields) as [impact'|] eqn:Ei; [|discriminate].
  simplify_eq. exists fields, m, p, cve, meta, impact.
  repeat split; assumption.
Qed.

(** X4.  What [result_to_cve] raises, in the order of its reads: a value
    that is not a dict raises [TypeError]; a dict without
    [lastModifiedDate] raises [KeyError]; a last-modified date that does
    not parse raises the parser's exception; with that date parsed, a
    dict without [publishedDate] raises [KeyError]. *)
Theorem result_to_cve_failures :
  (forall result_json,
     (forall fields, result_json <> JObj fields) ->
     result_to_cve result_json = Raise TypeError)
  /\ (forall fields,
        dict_get "lastModifiedDate" fields = None ->
        result_to_cve (JObj fields) = Raise KeyError)
  /\ (forall fields m e,
        dict_get "lastModifiedDate" fields = Some m ->
        py_strptime m DATE_FORMAT = Raise e ->
        result_to_cve (JObj fields) = Raise e)
  /\ (forall fields m mod_date,
        dict_get "lastModifiedDate" fields = Some m ->
        py_strptime m DATE_FORMAT = Ok mod_date ->
        dict_get "publishedDate" fields = None ->
        result_to_cve (JObj fields) = Raise KeyError).
Proof.
  split; [|split; [|split]].
  - intros [| | | | |fields] Hnot; try reflexivity. destruct (Hnot fields eq_refl).
  - intros fields Hm. unfold result_to_cve. cbn [getitem]. rewrite Hm. reflexivity.
  - intros fields m e Hm Hmod. unfold result_to_cve. cbn [getitem].
    rewrite Hm. cbn [rbind]. rewrite Hmod. reflexivity.
  - intros fields m mod_date Hm Hmod Hp. unfold result_to_cve. cbn [getitem].
    rewrite Hm. cbn [rbind]. rewrite Hmod. cbn [rbind]. rewrite Hp. reflexivity.
Qed.

End Items.

(** ** The single lookup and the probe of a detail page *)

Section Lookup.
Context `{Env}.
Import CveResultList.

Lemma dict_get_no_key {V} (k : string) (fields : list (string * V)) :
  dict_get k fields = None -> existsb (String.eqb k) (fst <$> fields) = false.
Proof.
  intros Hnone. destruct (existsb _ _) eqn:E; [|reflexivity].
  apply dict_get_keys in E. contradiction.
Qed.

(** X5.  [search_by_id] on a body without a [message] key, the response
    being a success: a count equal to zero raises [APIError], a missing
    count raises [KeyError], and any other count hands the body to the
    constructor.  A response with a failure status raises [APIError].
    Exactly one request is sent in every case. *)
Theorem search_by_id_no_message (self : NvdApi.t) (cve_id : string) (s : state) :
  let url := _SEARCH_URL_SPECIFIC +:+ "/" +:+ cve_id in
  let s1 := mkState (heap s) (trace s ++ [EvGet url []]) in
  (forall resp,
     requests_get url [] false = Ok resp -> ok resp = false ->
     NvdApi.search_by_id self cve_id s = Raises APIError s1)
  /\ (forall resp fields,
        requests_get url [] false = Ok resp -> ok resp = true ->
        body resp = Ok (JObj fields) ->
        dict_get "message" fields = None ->
        (dict_get "totalResults" fields = None ->
         NvdApi.search_by_id self cve_id s = Raises KeyError s1)
        /\ (forall total,
              dict_get "totalResults" fields = Some total ->
              json_eq total (JNum 0) = true ->
              NvdApi.search_by_id self cve_id s = Raises APIError s1)
        /\ (forall total,
              dict_get "totalResults" fields = Some total ->
              json_eq total (JNum 0) = false ->
              NvdApi.search_by_id self cve_id s = __init__ (ArgJson (JObj fields)) s1)).
Proof.
  intros url s1. split.
  - intros resp Hget Hok.
    unfold NvdApi.search_by_id, NvdApi._request_specific_by_id, NvdApi._perform_request.
    unfold mbind, log, lift. fold url. rewrite Hget, Hok. reflexivity.
  - intros resp fields Hget Hok Hbody Hmsg.
    assert (Hstart : forall k : json -> M t,
               mbind (NvdApi._request_specific_by_id self cve_id) k s = k (JObj fields) s1).
    { intros k. unfold NvdApi._request_specific_by_id, NvdApi._perform_request.
      unfold mbind, log, lift. fold url. rewrite Hget, Hok, Hbody. reflexivity. }
    split; [|split]; intros; unfold NvdApi.search_by_id; rewrite Hstart;
      unfold mbind; cbn [py_keys lift]; rewrite (dict_get_no_key _ _ Hmsg);
      cbn [ret getitem].
    + match goal with Ht : dict_get "totalResults" _ = _ |- _ => rewrite Ht end.
      reflexivity.
    + match goal with Ht : dict_get "totalResults" _ = _ |- _ => rewrite Ht end.
      cbn [lift ret]. match goal with Hz : json_eq _ _ = _ |- _ => rewrite Hz end.
      reflexivity.
    + match goal with Ht : dict_get "totalResults" _ = _ |- _ => rewrite Ht end.
      cbn [lift ret]. match goal with Hz : json_eq _ _ = _ |- _ => rewrite Hz end.
      reflexivity.
Qed.

(** X6.  [get_url] with [check_is_up] set sends one HEAD request to the
    detail URL and touches no list; it returns the URL when the status is
    200, [None] for every other status, and passes on an exception of the
    transport. *)
Theorem get_url_checked (c : Cve) (s : state) :
  let url := DETAIL_VIEW_PREFIX +:+ py_str (cve_id c) in
  let s1 := mkState (heap s) (trace s ++ [EvHead url]) in
  (forall status, requests_head url = Ok status -> status = 200 ->
     get_url c true s = Returns (JStr url) s1)
  /\ (forall status, requests_head url = Ok status -> status <> 200 ->
        get_url c true s = Returns JNull s1)
  /\ (forall e, requests_head url = Raise e -> get_url c true s = Raises e s1).
Proof.
  intros url s1. unfold get_url. fold url. unfold mbind, log, lift.
  split; [|split].
  - intros status -> ->. reflexivity.
  - intros status -> Hne. cbn. destruct (Z.eqb_spec status 200); [contradiction|reflexivity].
  - intros e ->. reflexivity.
Qed.

End Lookup.

(** X7.  A client gets the budget of 100 calls exactly when its key is a
    non-empty string, and 10 calls otherwise, in a period of 60 seconds. *)
Theorem client_budget (api_key : option string) :
  NvdApi.period (NvdApi.__init__ api_key) = 60
  /\ NvdApi.api_key (NvdApi.__init__ api_key) = api_key
  /\ (NvdApi.max_calls (NvdApi.__init__ api_key) = 100
      <-> exists key, api_key = Some key /\ key <> "")
  /\ (NvdApi.max_calls (NvdApi.__init__ api_key) = 10
      <-> api_key = None \/ api_key = Some "").
Proof.
  split; [reflexivity|]. split; [reflexivity|].
  destruct api_key as [[|ch rest]|]; cbn [NvdApi.__init__ NvdApi.max_calls].
  - split; split.
    + discriminate.
    + intros (key & [= <-] & Hne). congruence.
    + intros _. right. reflexivity.
    + reflexivity.
  - split; split.
    + intros _. eexists. split; [reflexivity|discriminate].
    + reflexivity.
    + discriminate.
    + intros [Hk|Hk]; discriminate.
  - split; split.
    + discriminate.
    + intros (key & Hk & _). discriminate.
    + intros _. left. reflexivity.
    + reflexivity.
Qed.

(** ** Queries on a result set *)

Section Queries.
Context `{Env}.
Import CveResultList.

Lemma read_only_ret {A} (a : A) : read_only (ret a).
Proof. intros s. reflexivity. Qed.

Lemma read_only_lift {A} (r : result A) : read_only (lift r).
Proof. intros s. destruct r; reflexivity. Qed.

Lemma read_only_read_list (r : loc) : read_only (read_list r).
Proof. intros s. reflexivity. Qed.

Lemma read_only_bind {A B} (m : M A) (k : A -> M B) :
  read_only m -> (forall a, read_only (k a)) -> read_only (mbind m k).
Proof.
  intros Hm Hk s. unfold mbind. specialize (Hm s).
  destruct (m s) as [a s1|e s1|]; [|exact Hm|exact Hm].
  subst s1. apply Hk.
Qed.

Lemma read_only_mapM {A B} (f : A -> M B) (l : list A) :
  (forall x, read_only (f x)) -> read_only (mapM f l).
Proof.
  intros Hf. induction l as [|x l IH]; cbn [mapM]; [apply read_only_ret|].
  apply read_only_bind; [apply Hf|]. intros y.
  apply read_only_bind; [exact IH|]. intros ys. apply read_only_ret.
Qed.

Lemma read_only_id_pair (make_urls : bool) (x : item) : read_only (id_pair make_urls x).
Proof.
  unfold id_pair. apply read_only_bind; [apply read_only_lift|]. intros id.
  destruct x as [c|v]; [|intros s; reflexivity].
  destruct make_urls; [|apply read_only_ret].
  apply read_only_bind; [intros s; reflexivity|]. intros url. apply read_only_ret.
Qed.

(** X8.  [get_latest], [get_max_severity] and [get_cve_id_list] (with or
    without URLs) end, whatever the list holds, by a return or by an
    exception, in the state they started from: they change no list and
    send no request. *)
Theorem queries_read_only (self : t) :
  read_only (get_latest self)
  /\ read_only (get_max_severity self)
  /\ (forall make_urls, read_only (get_cve_id_list self make_urls)).
Proof.
  split; [|split].
  - unfold get_latest. apply read_only_bind; [apply read_only_read_list|]. intros l.
    apply read_only_bind; [apply read_only_lift|]. intros x. apply read_only_ret.
  - unfold get_max_severity. apply read_only_bind; [apply read_only_read_list|].
    intros [|x l]; [apply read_only_ret|].
    apply read_only_bind; [apply read_only_lift|]. intros y. apply read_only_lift.
  - intros make_urls. unfold get_cve_id_list.
    apply read_only_bind; [apply read_only_read_list|]. intros l.
    apply read_only_mapM. apply read_only_id_pair.
Qed.

Lemma max_loop_raises {A} (key : A -> result Z) (pre : list A) (bad : A)
    (post : list A) (e : exn) :
  (forall y, y ∈ pre -> exists ky, key y = Ok ky) ->
  key bad = Raise e ->
  forall best kb, max_loop key (pre ++ bad :: post) best kb = Raise e.
Proof.
  intros Hpre Hbad. induction pre as [|x pre IH]; intros best kb; cbn [app max_loop].
  - rewrite Hbad. reflexivity.
  - destruct (Hpre x) as [kx Hkx]; [left|]. rewrite Hkx. cbn [rbind].
    assert (Hrest : forall y, y ∈ pre -> exists ky, key y = Ok ky)
      by (intros y Hy; apply Hpre; right; exact Hy).
    destruct (kx >? kb); apply IH; exact Hrest.
Qed.

Lemma py_max_raises {A} (key : A -> result Z) (pre : list A) (bad : A)
    (post : list A) (e : exn) :
  (forall y, y ∈ pre -> exists ky, key y = Ok ky) ->
  key bad = Raise e ->
  py_max key (pre ++ bad :: post) = Raise e.
Proof.
  intros Hpre Hbad. destruct pre as [|x pre]; cbn [app py_max].
  - rewrite Hbad. reflexivity.
  - destruct (Hpre x) as [kx Hkx]; [left|]. rewrite Hkx. cbn [rbind].
    apply max_loop_raises; [|exact Hbad].
    intros y Hy. apply Hpre. right. exact Hy.
Qed.

Lemma severity_ranking_unknown_label (c : Cve) (label : string) :
  severity c = JStr label -> label ∉ SEVERITY_LABELS ->
  _severity_ranking (Rec c) = Raise KeyError.
Proof.
  intros Hsev Hnot. unfold _severity_ranking. cbn [attr_severity rbind]. rewrite Hsev.
  destruct (dict_get label severities) as [rank|] eqn:E; [|reflexivity].
  exfalso. apply Hnot. unfold severities in E. cbn [dict_get] in E.
  unfold SEVERITY_LABELS.
  repeat match type of E with
         | (if String.eqb label ?k then _ else _) = _ =>
             destruct (String.eqb_spec label k) as [->|_];
             [repeat first [apply list_elem_of_here | apply list_elem_of_further]|]
         end.
  discriminate.
Qed.

(** X9.  A record whose severity is a string outside the five labels
    makes [get_max_severity] raise [KeyError], wherever the record stands
    among records with labels of the enumeration and whatever follows it;
    the state is unchanged. *)
Theorem get_max_severity_unknown_label (self : t) (s : state)
    (pre : list Cve) (bad : Cve) (post : list Cve) (label : string) :
  heap s !! results self = Some (Rec <$> (pre ++ bad :: post)) ->
  Forall labelled pre ->
  severity bad = JStr label -> label ∉ SEVERITY_LABELS ->
  get_max_severity self s = Raises KeyError s.
Proof.
  intros Hr Hpre Hsev Hnot. unfold get_max_severity, mbind.
  rewrite (read_list_records _ _ _ Hr).
  assert (Hmax : py_max _severity_ranking (Rec <$> (pre ++ bad :: post)) = Raise KeyError).
  { rewrite fmap_app, fmap_cons. apply py_max_raises.
    - intros y Hy. apply list_elem_of_fmap in Hy as (c & -> & Hc).
      apply severity_ranking_labelled. rewrite Forall_forall in Hpre. auto.
    - apply (severity_ranking_unknown_label bad label Hsev Hnot). }
  destruct (Rec <$> (pre ++ bad :: post)) as [|x l] eqn:E.
  - destruct pre; discriminate.
  - unfold lift. rewrite Hmax. reflexivity.
Qed.

(** X10.  Without URLs [get_cve_id_list] returns one pair per record, in
    storage order, of the identifier and [None], in the state it was
    given. *)
Theorem get_cve_id_list_plain (self : t) (s : state) (cs : list Cve) :
  heap s !! results self = Some (Rec <$> cs) ->
  get_cve_id_list self false s
  = Returns ((fun c => id_tuple (cve_id c) JNull) <$> cs) s.
Proof. intros Hr. apply (get_cve_id_list_records self false cs s Hr). Qed.

(** X11.  Over two different list objects [add] returns, given fuel for
    one turn per record of [other] and one more, a set whose list is the
    list of [first] and holds the records of [first] followed by all the
    records of [other], those whose identifier [first] already has
    included. *)
Theorem add_concatenates (fuel : nat) (first other : t) (a b : list Cve) (s : state) :
  results first <> results other ->
  heap s !! results first = Some (Rec <$> a) ->
  heap s !! results other = Some (Rec <$> b) ->
  (length b < fuel)%nat ->
  exists merged s',
    add fuel first other s = Returns merged s'
    /\ results merged = results first
    /\ heap s' !! results merged = Some (Rec <$> (a ++ b))
    /\ heap s' !! results first = Some (Rec <$> (a ++ b)).
Proof.
  intros Hne Ha Hb Hfuel. eexists _, _.
  rewrite (add_appends_all fuel first other a b s Hne Ha Hb Hfuel).
  split; [reflexivity|]. cbn [results heap]. split; [reflexivity|].
  assert (Hl : <[results first := Rec <$> (a ++ b)]> (heap s) !! results first
               = Some (Rec <$> (a ++ b)))
    by (apply list_lookup_insert_eq; eapply lookup_lt_Some; eauto).
  split; exact Hl.
Qed.

Lemma add_loop_shared_diverges (fuel : nat) (first other : t) :
  results first = results other ->
  forall (i : nat) (a : list Cve) (s : state),
    heap s !! results first = Some (Rec <$> a) ->
    (i < length a)%nat ->
    add_loop fuel first other i s = OutOfFuel.
Proof.
  intros Hsame. induction fuel as [|fuel IH]; intros i a s Ha Hi; [reflexivity|].
  destruct (lookup_lt_is_Some_2 a i Hi) as [o Ho].
  assert (Hb : heap s !! results other = Some (Rec <$> a)) by (rewrite <- Hsame; exact Ha).
  rewrite (add_loop_step fuel first other i s a a o Ha Hb Ho).
  apply (IH (S i) (a ++ [o])); cbn [heap].
  - apply list_lookup_insert_eq. eapply lookup_lt_Some; eauto.
  - rewrite length_app. simpl. lia.
Qed.

(** X12.  When the two sets share one list object (a set with itself, or a
    set with a result of [add] it was the first operand of), [add] never
    returns if the list holds a record, whatever the fuel; if the list is
    empty it returns at once and changes nothing. *)
Theorem add_shared_list (first other : t) (a : list Cve) (s : state) :
  results first = results other ->
  heap s !! results first = Some (Rec <$> a) ->
  (a <> [] -> forall fuel, add fuel first other s = OutOfFuel)
  /\ (a = [] -> forall fuel,
        add (S fuel) first other s = Returns (mk (results first) None) s).
Proof.
  intros Hsame Ha. split.
  - intros Hne fuel. unfold add, mbind.
    rewrite (add_loop_shared_diverges fuel first other Hsame 0 a s Ha); [reflexivity|].
    destruct a; [congruence|simpl; lia].
  - intros -> fuel. unfold add, mbind.
    rewrite (add_loop_end fuel first other 0 s []); [reflexivity| |simpl; lia].
    rewrite <- Hsame. exact Ha.
Qed.

End Queries.

(** ** The search over a date range *)

Section Search.
Context `{Env}.
Import CveResultList NvdApi.

(** X13.  For valid dates with [start < now] the number of ranges, and so
    of requests of a search, is the number of spans of 120 days that
    [now - start] fills, the last one possibly in part. *)
Theorem date_ranges_count (now start : datetime) :
  dt_valid start -> dt_valid now -> start < now ->
  exists rs,
    date_ranges now start = Ok rs
    /\ Z.of_nat (length rs) = (now - start - 1) `div` days 120 + 1.
Proof.
  intros Hs Hn Hlt.
  destruct (date_ranges_closed now start Hs Hn) as (n & Heq & Hlast & Hfull).
  exists (ranges_of start now n). split; [exact Heq|].
  rewrite ranges_of_length. change (days 120) with max_delta.
  pose proof max_delta_pos as HD.
  assert (Hlow : Z.of_nat n * max_delta < now - start)
    by (destruct n; [simpl; lia|apply Hfull; lia]).
  assert (Hdiv : (now - start - 1) `div` max_delta = Z.of_nat n).
  { symmetry. apply (Z.div_unique_pos _ _ _ (now - start - 1 - Z.of_nat n * max_delta)); lia. }
  rewrite Hdiv. lia.
Qed.

Lemma query_range_answered (self : NvdApi.t) (keyword : string)
    (range : datetime * datetime) (cs : list Cve) (s : state) :
  range_answered keyword range cs ->
  exists n,
    query_range self keyword range s
    = Returns (CveResultList.mk (length (heap s)) (Some n))
        (mkState (heap s ++ [Rec <$> cs]) (trace s ++ [range_request keyword range])).
Proof.
  intros (payload & n & Hget & Hwf). exists n.
  unfold query_range, _name_date_query, _perform_request.
  unfold mbind at 1. unfold mbind at 1, log. unfold mbind at 1. rewrite Hget.
  cbn [lift ok body].
  apply (init_payload_records payload n cs
           (mkState (heap s) (trace s ++ [range_request keyword range])) Hwf).
Qed.

Lemma query_range_refused (self : NvdApi.t) (keyword : string)
    (range : datetime * datetime) (s : state) :
  range_refused keyword range ->
  query_range self keyword range s
  = Raises APIError (mkState (heap s) (trace s ++ [range_request keyword range])).
Proof.
  intros (resp & Hget & Hok).
  unfold query_range, _name_date_query, _perform_request.
  unfold mbind at 1. unfold mbind at 1, log. unfold mbind at 1. rewrite Hget.
  cbn [lift]. rewrite Hok. reflexivity.
Qed.

Lemma mapM_query_ranges (self : NvdApi.t) (keyword : string)
    (ranges : list (datetime * datetime)) (css : list (list Cve)) :
  Forall2 (range_answered keyword) ranges css ->
  forall s,
    exists sets : list CveResultList.t,
      mapM (query_range self keyword) ranges s
      = Returns sets
          (mkState (heap s ++ (fmap (M := list) Rec <$> css))
                   (trace s ++ (range_request keyword <$> ranges)))
      /\ fmap (M := list) results sets = seq (length (heap s)) (length ranges).
Proof.
  induction 1 as [|range cs ranges css Hans _ IH]; intros s.
  - exists []. cbn. unfold ret. rewrite !app_nil_r, state_eta. auto.
  - destruct (query_range_answered self keyword range cs s Hans) as [n Hq].
    destruct (IH (mkState (heap s ++ [Rec <$> cs])
                          (trace s ++ [range_request keyword range])))
      as (sets & Hmap & Hlocs).
    cbn [heap trace] in Hmap, Hlocs.
    exists (CveResultList.mk (length (heap s)) (Some n) :: sets).
    cbn [mapM]. unfold mbind at 1. rewrite Hq. unfold mbind. rewrite Hmap.
    unfold ret. rewrite !fmap_cons, <- !app_assoc. split; [reflexivity|].
    cbn [results length seq]. f_equal. rewrite Hlocs, length_app. cbn [length].
    f_equal. lia.
Qed.

Lemma mapM_query_refused (self : NvdApi.t) (keyword : string)
    (pre : list (datetime * datetime)) (css : list (list Cve))
    (range : datetime * datetime) (post : list (datetime * datetime)) :
  Forall2 (range_answered keyword) pre css ->
  range_refused keyword range ->
  forall s,
    mapM (query_range self keyword) (pre ++ range :: post) s
    = Raises APIError
        (mkState (heap s ++ (fmap (M := list) Rec <$> css))
                 (trace s ++ (range_request keyword <$> pre)
                          ++ [range_request keyword range])).
Proof.
  intros Hpre Href. induction Hpre as [|r cs pre css Hans _ IH]; intros s.
  - cbn [app mapM]. unfold mbind. rewrite (query_range_refused _ _ _ _ Href).
    cbn. rewrite app_nil_r. reflexivity.
  - destruct (query_range_answered self keyword r cs s Hans) as [n Hq].
    cbn [app mapM]. unfold mbind at 1. rewrite Hq. unfold mbind at 1.
    rewrite IH. cbn [heap trace]. rewrite !fmap_cons, <- !app_assoc. reflexivity.
Qed.

(** The fold of [add] from an empty-count set over sets that each hold a
    list of their own: the list of the accumulator receives all records. *)
Lemma reduce_add_concat (fuel : nat) (acc_list : loc) (sets : list CveResultList.t) :
  forall (css : list (list Cve)) (a : list Cve) (s : state),
    heap s !! acc_list = Some (Rec <$> a) ->
    Forall2 (fun set cs =>
               results set <> acc_list
               /\ heap s !! results set = Some (Rec <$> cs)
               /\ (length cs < fuel)%nat) sets css ->
    reduce (add fuel) sets (CveResultList.mk acc_list None) s
    = Returns (CveResultList.mk acc_list None)
        (mkState (<[acc_list := Rec <$> (a ++ concat css)]> (heap s)) (trace s)).
Proof.
  induction sets as [|x sets IH]; intros css a s Ha Hsets.
  - apply Forall2_nil_inv_l in Hsets as ->. cbn. unfold ret.
    rewrite app_nil_r, list_insert_id by exact Ha. rewrite state_eta. reflexivity.
  - apply Forall2_cons_inv_l in Hsets as (cs & css' & (Hne & Hx & Hfuel) & Hrest & ->).
    cbn [reduce]. unfold mbind.
    rewrite (add_appends_all fuel (CveResultList.mk acc_list None) x a cs s);
      [|cbn [results]; congruence|exact Ha|exact Hx|exact Hfuel].
    cbn [results].
    rewrite (IH css' (a ++ cs)); cbn [heap trace].
    + rewrite list_insert_insert_eq. cbn [concat]. rewrite app_assoc. reflexivity.
    + apply list_lookup_insert_eq. eapply lookup_lt_Some; eauto.
    + eapply Forall2_impl; [exact Hrest|]. cbn beta.
      intros set cs' (Hne' & Hset & Hf'). split; [exact Hne'|]. split; [|exact Hf'].
      rewrite list_lookup_insert_ne by congruence. exact Hset.
Qed.

Lemma search_answered_state (self : NvdApi.t) (fuel : nat) (now start : datetime)
    (keyword : string) (ranges : list (datetime * datetime)) (css : list (list Cve))
    (s : state) :
  date_ranges now start = Ok ranges ->
  Forall2 (range_answered keyword) ranges css ->
  Forall (fun cs => (length cs < fuel)%nat) css ->
  search_by_name_and_date self fuel now keyword (Some start) s
  = Returns (CveResultList.mk (length (heap s) + length css)%nat None)
      (mkState (heap s ++ (fmap (M := list) Rec <$> css) ++ [Rec <$> concat css])
               (trace s ++ (range_request keyword <$> ranges))).
Proof.
  intros Hranges Hans Hfuel. unfold search_by_name_and_date.
  unfold mbind at 1. rewrite Hranges. cbn [lift].
  destruct (mapM_query_ranges self keyword ranges css Hans s) as (sets & Hmap & Hlocs).
  unfold mbind at 1. rewrite Hmap.
  unfold mbind at 1, new_list. cbn [heap trace].
  unfold mbind at 1. cbn [CveResultList.__init__ ret].
  assert (Hlen : length sets = length css).
  { apply (f_equal length) in Hlocs. rewrite length_fmap, length_seq in Hlocs.
    rewrite Hlocs. eapply Forall2_length; eauto. }
  rewrite length_app, length_fmap.
  assert (Hloc : (length (heap s) + length css)%nat
                 = length (heap s ++ (fmap (M := list) Rec <$> css)))
    by (rewrite length_app, length_fmap; reflexivity).
  rewrite (reduce_add_concat fuel _ sets css []); cbn [heap trace].
  - rewrite Hloc, insert_last, <- app_assoc. reflexivity.
  - rewrite Hloc. apply lookup_last.
  - apply Forall2_same_length_lookup_2; [exact Hlen|].
    intros i set cs Hset Hcs.
    assert (Hset_loc : results set = (length (heap s) + i)%nat).
    { assert (Hi : fmap (M := list) results sets !! i = Some (results set))
        by (rewrite list_lookup_fmap, Hset; reflexivity).
      rewrite Hlocs in Hi. apply lookup_seq in Hi as [-> _]. reflexivity. }
    pose proof (lookup_lt_Some _ _ _ Hcs) as Hi.
    rewrite Hset_loc. split; [lia|]. split.
    + rewrite <- app_assoc, lookup_app_r by lia.
      replace (length (heap s) + i - length (heap s))%nat with i by lia.
      rewrite lookup_app_l by (rewrite length_fmap; exact Hi).
      rewrite list_lookup_fmap, Hcs. reflexivity.
    + rewrite Forall_forall in Hfuel. apply Hfuel.
      eapply list_elem_of_lookup_2; eauto.
Qed.

(** X14.  When the transport answers every range with a success status
    and a well-formed payload, [search_by_name_and_date] sends one
    request per range, in order, and returns a set without a count over a
    new list that holds the records of all payloads, range after range,
    with nothing left out; the lists that existed are as they were. *)
Theorem search_concatenates_answers (self : NvdApi.t) (fuel : nat) (now start : datetime)
    (keyword : string) (ranges : list (datetime * datetime)) (css : list (list Cve))
    (s : state) :
  date_ranges now start = Ok ranges ->
  Forall2 (range_answered keyword) ranges css ->
  Forall (fun cs => (length cs < fuel)%nat) css ->
  exists found s',
    search_by_name_and_date self fuel now keyword (Some start) s = Returns found s'
    /\ num_results found = None
    /\ heap s !! results found = None
    /\ heap s' !! results found = Some (Rec <$> concat css)
    /\ (forall r l, heap s !! r = Some l -> heap s' !! r = Some l)
    /\ trace s' = trace s ++ (range_request keyword <$> ranges).
Proof.
  intros Hranges Hans Hfuel. eexists _, _.
  rewrite (search_answered_state self fuel now start keyword ranges css s
             Hranges Hans Hfuel).
  split; [reflexivity|]. cbn [num_results results heap trace].
  split; [reflexivity|]. split; [|split; [|split]].
  - apply lookup_ge_None_2. lia.
  - rewrite app_assoc.
    replace (length (heap s) + length css)%nat
      with (length (heap s ++ (fmap (M := list) Rec <$> css)))
      by (rewrite length_app, length_fmap; reflexivity).
    apply lookup_last.
  - intros r l Hr. apply lookup_app_l_Some. exact Hr.
  - reflexivity.
Qed.

(** X15.  When the transport answers a range with a failure status, the
    ranges before it having been answered, [search_by_name_and_date]
    raises [APIError] and returns nothing of what it fetched; the request
    of that range is the last one sent, and the lists that existed are as
    they were. *)
Theorem search_aborts_on_refusal (self : NvdApi.t) (fuel : nat) (now start : datetime)
    (keyword : string) (pre : list (datetime * datetime)) (css : list (list Cve))
    (range : datetime * datetime) (post : list (datetime * datetime)) (s : state) :
  date_ranges now start = Ok (pre ++ range :: post) ->
  Forall2 (range_answered keyword) pre css ->
  range_refused keyword range ->
  exists s',
    search_by_name_and_date self fuel now keyword (Some start) s = Raises APIError s'
    /\ trace s' = trace s ++ (range_request keyword <$> pre)
                          ++ [range_request keyword range]
    /\ (forall r l, heap s !! r = Some l -> heap s' !! r = Some l).
Proof.
  intros Hranges Hpre Href. unfold search_by_name_and_date.
  unfold mbind at 1. rewrite Hranges. cbn [lift].
  unfold mbind at 1.
  rewrite (mapM_query_refused self keyword pre css range post Hpre Href s).
  eexists. split; [reflexivity|]. cbn [heap trace]. split; [reflexivity|].
  intros r l Hr. apply lookup_app_l_Some. exact Hr.
Qed.

End Search.

(** ** Closed examples for the rest of the module *)

Lemma chunk1_well_formed :
  well_formed_payload (H := sample_env) chunk1_payload (JNum 2) [cve1_high; cve2_low].
Proof.
  eexists _, _, _, _. repeat split; try reflexivity.
  repeat (apply List.Forall2_cons; [reflexivity|]). apply List.Forall2_nil.
Defined.

Lemma chunk2_well_formed :
  well_formed_payload (H := sample_env) chunk2_payload (JNum 2)
    [cve2_critical; cve3_medium].
Proof.
  eexists _, _, _, _. repeat split; try reflexivity.
  repeat (apply List.Forall2_cons; [reflexivity|]). apply List.Forall2_nil.
Defined.

Lemma init_from_payload_witness :
  exists self s',
    CveResultList.__init__ (H := sample_env) (CveResultList.ArgJson chunk1_payload)
      two_lists = Returns self s'
    /\ CveResultList.num_results self = Some (JNum 2)
    /\ heap two_lists !! CveResultList.results self = None
    /\ heap s' !! CveResultList.results self = Some (Rec <$> [cve1_high; cve2_low])
    /\ (forall r l, heap two_lists !! r = Some l -> heap s' !! r = Some l)
    /\ trace s' = trace two_lists.
Proof.
  exact (init_from_payload (H := sample_env) chunk1_payload (JNum 2)
           [cve1_high; cve2_low] two_lists chunk1_well_formed).
Defined.

Lemma init_aborts_on_bad_item_witness :
  exists s',
    CveResultList.__init__ (H := sample_env)
      (CveResultList.ArgJson
         (sample_payload [sample_item "CVE-1" (impact_v2 "HIGH"); item_without_impact;
                          sample_item "CVE-3" (impact_v2 "MEDIUM")]))
      two_lists = Raises KeyError s'
    /\ (forall r l, heap two_lists !! r = Some l -> heap s' !! r = Some l)
    /\ trace s' = trace two_lists.
Proof.
  apply (init_aborts_on_bad_item (H := sample_env) _ (JNum 3)
           (JObj [("CVE_Items",
                   JList [sample_item "CVE-1" (impact_v2 "HIGH"); item_without_impact;
                          sample_item "CVE-3" (impact_v2 "MEDIUM")])])
           (JList [sample_item "CVE-1" (impact_v2 "HIGH"); item_without_impact;
                   sample_item "CVE-3" (impact_v2 "MEDIUM")])
           [sample_item "CVE-1" (impact_v2 "HIGH")] [cve1_high]
           item_without_impact [sample_item "CVE-3" (impact_v2 "MEDIUM")] KeyError);
    try reflexivity.
  apply List.Forall2_cons; [reflexivity|apply List.Forall2_nil].
Defined.

Lemma result_to_cve_fields_witness :
  exists fields m p cve meta impact,
    sample_item "CVE-1" (impact_v2 "HIGH") = JObj fields
    /\ dict_get "lastModifiedDate" fields = Some m
    /\ py_strptime (H := sample_env) m DATE_FORMAT = Ok (last_modified_date cve1_high)
    /\ dict_get "publishedDate" fields = Some p
    /\ py_strptime (H := sample_env) p DATE_FORMAT = Ok (published_date cve1_high)
    /\ dict_get "cve" fields = Some cve
    /\ getitem cve "CVE_data_meta" = Ok meta
    /\ getitem meta "ID" = Ok (cve_id cve1_high)
    /\ dict_get "impact" fields = Some impact.
Proof.
  exact (result_to_cve_fields (H := sample_env) (sample_item "CVE-1" (impact_v2 "HIGH"))
           cve1_high eq_refl).
Defined.

Lemma result_to_cve_failures_witness :
  result_to_cve (H := sample_env) (JStr "CVE-1") = Raise TypeError
  /\ result_to_cve (H := sample_env)
       (JObj [("lastModifiedDate", JStr "2021-03-05T08:30Z")]) = Raise KeyError
  /\ result_to_cve (H := sample_env)
       (JObj [("lastModifiedDate", JStr "yesterday")]) = Raise ValueError.
Proof.
  pose proof (result_to_cve_failures (H := sample_env)) as (Hty & _ & Hdate & Hpub).
  split; [|split].
  - apply Hty. discriminate.
  - apply (Hpub _ (JStr "2021-03-05T08:30Z") T_2021_03_05_08h30); reflexivity.
  - apply (Hdate _ (JStr "yesterday")); reflexivity.
Defined.

Lemma search_by_id_no_message_witness :
  NvdApi.search_by_id (H := sample_env) (NvdApi.__init__ None) "CVE-7" no_lists
  = Raises APIError (mkState [] [EvGet (_SEARCH_URL_SPECIFIC +:+ "/CVE-7") []]).
Proof.
  exact (proj1 (search_by_id_no_message (H := sample_env) (NvdApi.__init__ None)
                  "CVE-7" no_lists)
           (mkResponse false (Raise ValueError)) eq_refl eq_refl).
Defined.

Lemma get_url_checked_witness :
  get_url (H := sample_env) cve1_high true no_lists
  = Returns JNull (mkState [] [EvHead "https://nvd.nist.gov/vuln/detail/CVE-1"]).
Proof.
  apply (proj1 (proj2 (get_url_checked (H := sample_env) cve1_high no_lists)) 404);
    [reflexivity|discriminate].
Defined.

Lemma get_max_severity_unknown_label_witness :
  CveResultList.get_max_severity (CveResultList.mk 0%nat None)
    (mkState [[Rec cve1_high;
               Rec (mkCve (JStr "CVE-4") T_2021_01_01_10h T_2021_03_05_08h30 (JStr "NONE"));
               Rec cve2_low]] [])
  = Raises KeyError
      (mkState [[Rec cve1_high;
                 Rec (mkCve (JStr "CVE-4") T_2021_01_01_10h T_2021_03_05_08h30 (JStr "NONE"));
                 Rec cve2_low]] []).
Proof.
  apply (get_max_severity_unknown_label (CveResultList.mk 0%nat None) _ [cve1_high]
           (mkCve (JStr "CVE-4") T_2021_01_01_10h T_2021_03_05_08h30 (JStr "NONE"))
           [cve2_low] "NONE").
  - reflexivity.
  - apply List.Forall_cons; [|apply List.Forall_nil].
    exists "HIGH". split; [reflexivity|].
    unfold SEVERITY_LABELS.
    repeat first [apply list_elem_of_here | apply list_elem_of_further].
  - reflexivity.
  - unfold SEVERITY_LABELS. intros Hin.
    repeat (apply elem_of_cons in Hin as [Hin|Hin]; [discriminate Hin|]).
    apply elem_of_nil in Hin. exact Hin.
Defined.

Lemma get_cve_id_list_plain_witness :
  CveResultList.get_cve_id_list (H := sample_env) set_A false two_lists
  = Returns [id_tuple (JStr "CVE-1") JNull] two_lists.
Proof.
  exact (get_cve_id_list_plain (H := sample_env) set_A two_lists [cve1_high] eq_refl).
Defined.

Lemma add_concatenates_witness :
  exists merged s',
    CveResultList.add (H := sample_env) 2 set_A set_B two_lists = Returns merged s'
    /\ CveResultList.results merged = CveResultList.results set_A
    /\ heap s' !! CveResultList.results merged = Some (Rec <$> ([cve1_high] ++ [cve1_low]))
    /\ heap s' !! CveResultList.results set_A = Some (Rec <$> ([cve1_high] ++ [cve1_low])).
Proof.
  apply (add_concatenates (H := sample_env) 2 set_A set_B [cve1_high] [cve1_low] two_lists);
    [discriminate|reflexivity|reflexivity|simpl; lia].
Defined.

Lemma add_shared_list_witness :
  (forall fuel, CveResultList.add (H := sample_env) fuel set_A set_A two_lists = OutOfFuel)
  /\ (forall fuel,
        CveResultList.add (H := sample_env) (S fuel) set_empty set_empty two_lists
        = Returns set_empty two_lists).
Proof.
  split.
  - apply (proj1 (add_shared_list (H := sample_env) set_A set_A [cve1_high] two_lists
                    eq_refl eq_refl)).
    discriminate.
  - apply (proj2 (add_shared_list (H := sample_env) set_empty set_empty [] two_lists
                    eq_refl eq_refl)).
    reflexivity.
Defined.

Lemma date_ranges_count_witness :
  exists rs,
    NvdApi.date_ranges T_2020_06_01 T_2020_01_01 = Ok rs
    /\ Z.of_nat (length rs) = (T_2020_06_01 - T_2020_01_01 - 1) `div` days 120 + 1.
Proof.
  apply date_ranges_count;
    [unfold dt_valid, T_2020_01_01, DT_MAX; lia
    |unfold dt_valid, T_2020_06_01, DT_MAX; lia
    |reflexivity].
Defined.

Lemma search_concatenates_answers_witness :
  exists found s',
    NvdApi.search_by_name_and_date (H := sample_env) (NvdApi.__init__ None) 3
      T_2020_06_01 "test" (Some T_2020_01_01) no_lists = Returns found s'
    /\ CveResultList.num_results found = None
    /\ heap no_lists !! CveResultList.results found = None
    /\ heap s' !! CveResultList.results found
       = Some (Rec <$> concat [[cve1_high; cve2_low]; [cve2_critical; cve3_medium]])
    /\ (forall r l, heap no_lists !! r = Some l -> heap s' !! r = Some l)
    /\ trace s' = trace no_lists
                  ++ (range_request (H := sample_env) "test"
                        <$> [(T_2020_01_01, T_2020_04_30); (T_2020_04_30, T_2020_06_01)]).
Proof.
  apply (search_concatenates_answers (H := sample_env) (NvdApi.__init__ None) 3
           T_2020_06_01 T_2020_01_01 "test").
  - reflexivity.
  - apply List.Forall2_cons; [|apply List.Forall2_cons; [|apply List.Forall2_nil]].
    + exists chunk1_payload, (JNum 2). split; [reflexivity|exact chunk1_well_formed].
    + exists chunk2_payload, (JNum 2). split; [reflexivity|exact chunk2_well_formed].
  - repeat (apply List.Forall_cons; [simpl; lia|]). apply List.Forall_nil.
Defined.

(** A search that reaches past the two canned chunks: the third request
    is refused, and the records of the first two are lost with it. *)
Lemma search_aborts_on_refusal_witness :
  exists s',
    NvdApi.search_by_name_and_date (H := sample_env) (NvdApi.__init__ None) 3
      (T_2020_04_30 + days 121) "test" (Some T_2020_01_01) no_lists
    = Raises APIError s'
    /\ trace s' = trace no_lists
                  ++ (range_request (H := sample_env) "test"
                        <$> [(T_2020_01_01, T_2020_04_30);
                             (T_2020_04_30, T_2020_04_30 + days 120)])
                  ++ [range_request (H := sample_env) "test"
                        (T_2020_04_30 + days 120, T_2020_04_30 + days 121)]
    /\ (forall r l, heap no_lists !! r = Some l -> heap s' !! r = Some l).
Proof.
  apply (search_aborts_on_refusal (H := sample_env) (NvdApi.__init__ None) 3
           (T_2020_04_30 + days 121) T_2020_01_01 "test"
           [(T_2020_01_01, T_2020_04_30); (T_2020_04_30, T_2020_04_30 + days 120)]
           [[cve1_high; cve2_low]; [cve2_critical; cve3_medium]]
           (T_2020_04_30 + days 120, T_2020_04_30 + days 121) []).
  - reflexivity.
  - apply List.Forall2_cons; [|apply List.Forall2_cons; [|apply List.Forall2_nil]].
    + exists chunk1_payload, (JNum 2). split; [reflexivity|exact chunk1_well_formed].
    + exists chunk2_payload, (JNum 2). split; [reflexivity|exact chunk2_well_formed].
  - exists (mkResponse false (Raise ValueError)). split; reflexivity.
Defined.

Lemma get_latest_first_max_witness :
  exists m,
    CveResultList.get_latest (CveResultList.mk 0%nat None)
      (mkState [[Rec cve1_high; Rec cve1_low; Rec cve2_low]] [])
    = Returns (Some (Rec m)) (mkState [[Rec cve1_high; Rec cve1_low; Rec cve2_low]] [])
    /\ first_max attr_published_date (Rec <$> [cve1_high; cve1_low; cve2_low]) (Rec m).
Proof.
  apply (get_latest_first_max (CveResultList.mk 0%nat None)
           (mkState [[Rec cve1_high; Rec cve1_low; Rec cve2_low]] [])
           [cve1_high; cve1_low; cve2_low]);
    [reflexivity|discriminate].
Defined.

Lemma get_latest_empty_witness :
  CveResultList.get_latest set_empty two_lists = Raises ValueError two_lists.
Proof. exact (get_latest_empty set_empty two_lists eq_refl). Defined.

Lemma search_by_id_message_witness :
  NvdApi.search_by_id (H := sample_env) (NvdApi.__init__ None) "CVE-0000-0000" no_lists
  = Raises AttributeError
      (mkState (heap no_lists)
         (trace no_lists ++ [EvGet (_SEARCH_URL_SPECIFIC +:+ "/" +:+ "CVE-0000-0000") []])).
Proof.
  apply (search_by_id_message (H := sample_env) (NvdApi.__init__ None) "CVE-0000-0000"
           (mkResponse true (Ok not_found_payload))
           [("message", JStr "Unable to find vuln CVE-0000-0000"); ("totalResults", JNum 0)]);
    [reflexivity|reflexivity|reflexivity|discriminate].
Defined.
